(** * Assets API (main.py): route handlers over a document store

    A shallow embedding of the six route handlers of [main.py] together
    with the parts of the document-store driver, of the identifier type
    and of the schema validation that the handlers call, followed by the
    properties of the CRUD contract.

    Conventions.
    - Python text is a Rocq [string]; one [ascii] stands for one character.
    - A Python [dict] with text keys is a [gmap string _].
    - A handler is a function of the global store handle [db], which is
      [None] when the store was never initialised; it gives back its
      outcome and the store handle after the request.
    - An exception leaving a handler is kept as a value of [exn]; the
      web framework turns [HTTPException] into its status code and every
      other exception into a plain status 500. *)

From stdpp Require Import gmap strings list fin_maps pretty.
From Stdlib Require Import Ascii String.

Open Scope string_scope.
Open Scope list_scope.

(** ** Identifiers

    An ObjectId is the byte string held by [bson.ObjectId]; the store
    generates 12-byte ones. *)

Module ObjectId.

Definition t := list N.

(** One hexadecimal digit, either case. *)
Definition hexval (c : ascii) : option N :=
  let n := N_of_ascii c in
  if (48 <=? n)%N && (n <=? 57)%N then Some (n - 48)%N
  else if (97 <=? n)%N && (n <=? 102)%N then Some (n - 87)%N
  else if (65 <=? n)%N && (n <=? 70)%N then Some (n - 55)%N
  else None.

(** ASCII white space, which [bytes.fromhex] skips between bytes. *)
Definition isspace (c : ascii) : bool :=
  let n := N_of_ascii c in
  (n =? 32)%N || ((9 <=? n)%N && (n <=? 13)%N).

(** [bytes.fromhex]: pairs of hexadecimal digits; [None] stands for
    the [ValueError]. *)
Fixpoint fromhex (s : string) : option (list N) :=
  match s with
  | EmptyString => Some []
  | String c r =>
      if isspace c then fromhex r
      else match r with
           | EmptyString => None
           | String c' r' =>
               match hexval c, hexval c' with
               | Some h, Some l => cons (16 * h + l)%N <$> fromhex r'
               | _, _ => None
               end
           end
  end.

(** [ObjectId(text)]: the text must have 24 characters and be accepted
    by [bytes.fromhex]; [None] stands for [InvalidId]. *)
Definition parse (s : string) : option t :=
  if decide (String.length s = 24) then fromhex s else None.

Definition hexdigit (n : N) : ascii :=
  if (n <? 10)%N then ascii_of_N (48 + n) else ascii_of_N (87 + n).

(** [str(oid)]: two lower-case hexadecimal digits per byte. *)
Fixpoint to_str (o : t) : string :=
  match o with
  | [] => EmptyString
  | b :: r => String (hexdigit (b / 16)) (String (hexdigit (b mod 16)) (to_str r))
  end.

(** The big-endian bytes of [n], [k] of them. *)
Fixpoint be_bytes (k : nat) (n : N) : list N :=
  match k with
  | O => []
  | S k' => be_bytes k' (n / 256) ++ [(n mod 256)%N]
  end.

(** The identifier the store hands out for its [n]-th insertion. *)
Definition generate (n : N) : t := be_bytes 12 n.

End ObjectId.

(** ** Stored values and documents *)

(** [datetime.datetime], naive, as [utcnow] returns it. *)
Record datetime := mk_datetime {
  year : N; month : N; day : N;
  hour : N; minute : N; second : N; microsecond : N
}.

(** The scalar values the service reads and writes in a document. *)
Inductive value :=
  | VNone
  | VBool (b : bool)
  | VInt (z : Z)
  | VStr (s : string)
  | VOid (o : ObjectId.t)
  | VDate (d : datetime).

#[global] Instance datetime_eq_dec : EqDecision datetime.
Proof. solve_decision. Defined.

#[global] Instance value_eq_dec : EqDecision value.
Proof. solve_decision. Defined.

(** A document is a Python [dict]. *)
Abbreviation document := (gmap string value).

(** [doc.get(k)] and [doc.get(k, dflt)]. *)
Definition get (doc : document) (k : string) : value :=
  default VNone (doc !! k).

Definition get_or (doc : document) (k : string) (dflt : value) : value :=
  default dflt (doc !! k).

(** Decimal text of [n], padded with zeros on the left to [w] characters. *)
Definition zfill (w : nat) (n : N) : string :=
  let s := pretty n in
  String.concat "" (replicate (w - String.length s) "0") ++ s.

(** [str(datetime)]: ISO format with a space; the fraction is printed
    only when it is not zero. *)
Definition str_datetime (d : datetime) : string :=
  zfill 4 (year d) ++ "-" ++ zfill 2 (month d) ++ "-" ++ zfill 2 (day d) ++ " " ++
  zfill 2 (hour d) ++ ":" ++ zfill 2 (minute d) ++ ":" ++ zfill 2 (second d) ++
  (if (microsecond d =? 0)%N then "" else "." ++ zfill 6 (microsecond d)).

(** Python's [str(v)]. *)
Definition py_str (v : value) : string :=
  match v with
  | VNone => "None"
  | VBool true => "True"
  | VBool false => "False"
  | VInt z => pretty z
  | VStr s => s
  | VOid o => ObjectId.to_str o
  | VDate d => str_datetime d
  end.

(** ** Exceptions and outcomes *)

Inductive exn :=
  | HTTPException (status_code : nat) (detail : string)
  | ValidationError (fields : list string)
  | AttributeError (msg : string)
  | InvalidId (text : string)
  | PyMongoError (msg : string).

Inductive result (A : Type) :=
  | Ok (a : A)
  | Raise (e : exn).
Arguments Ok {A} a.
Arguments Raise {A} e.

(** The status line the framework sends: an [HTTPException] carries its
    own code, any other exception is an internal server error. *)
Definition http_status {A} (r : result A) : nat :=
  match r with
  | Ok _ => 200
  | Raise (HTTPException c _) => c
  | Raise _ => 500
  end.

(** ** The document store

    The state of the store as the driver sees it.  [collections] maps a
    collection name to its documents in the store's native order, which
    is insertion order.  [inserted] counts the identifiers handed out;
    the next insertion gets the identifier of that number.
    [down] is [Some text] when the server cannot be reached: every
    driver call then raises an exception whose text is [text].  [calls]
    records each driver call, most recent first. *)

Inductive store_call :=
  | ListCollectionNames
  | Find (coll : string)
  | FindOne (coll : string)
  | InsertOne (coll : string)
  | FindOneAndUpdate (coll : string)
  | DeleteOne (coll : string).

Record database := mk_database {
  name : string;
  collections : gmap string (list document);
  inserted : N;
  down : option string;
  calls : list store_call
}.

(** What a driver call gives back: its value, or the text of the
    exception it raises. *)
Inductive outcome (A : Type) :=
  | Done (a : A)
  | Failed (text : string).
Arguments Done {A} a.
Arguments Failed {A} text.

Definition record_call (c : store_call) (d : database) : database :=
  mk_database (name d) (collections d) (inserted d) (down d) (c :: calls d).

Definition set_collection (coll : string) (docs : list document) (d : database) : database :=
  mk_database (name d) (<[coll := docs]> (collections d)) (inserted d) (down d) (calls d).

(** [db[coll]]: a collection that was never written to is empty. *)
Definition collection (d : database) (coll : string) : list document :=
  default [] (collections d !! coll).

(** One round trip: the call is recorded, fails when the server is
    down, and otherwise runs [op] on the store. *)
Definition round_trip {A} (c : store_call) (op : database → A * database)
    (d : database) : outcome A * database :=
  let d := record_call c d in
  match down d with
  | Some text => (Failed text, d)
  | None => let '(a, d') := op d in (Done a, d')
  end.

(** The filter [{"_id": oid}]. *)
Definition has_id (oid : ObjectId.t) (doc : document) : bool :=
  bool_decide (doc !! "_id" = Some (VOid oid)).

(** The first document with that identifier. *)
Fixpoint first_with_id (oid : ObjectId.t) (docs : list document) : option document :=
  match docs with
  | [] => None
  | doc :: rest => if has_id oid doc then Some doc else first_with_id oid rest
  end.

(** [$set]: the given fields replace or extend those of the first
    document with that identifier; the others are kept. *)
Fixpoint set_first (oid : ObjectId.t) (fields : document) (docs : list document)
    : list document :=
  match docs with
  | [] => []
  | doc :: rest =>
      if has_id oid doc then (fields ∪ doc) :: rest
      else doc :: set_first oid fields rest
  end.

(** The first document with that identifier is dropped. *)
Fixpoint remove_first (oid : ObjectId.t) (docs : list document) : list document :=
  match docs with
  | [] => []
  | doc :: rest =>
      if has_id oid doc then rest else doc :: remove_first oid rest
  end.

(** [db.list_collection_names()]. *)
Definition list_collection_names : database → outcome (list string) * database :=
  round_trip ListCollectionNames (λ d, ((map_to_list (collections d)).*1, d)).

(** [list(db[coll].find({}).limit(n))]. *)
Definition find (coll : string) (n : nat) : database → outcome (list document) * database :=
  round_trip (Find coll) (λ d, (take n (collection d coll), d)).

(** [db[coll].find_one({"_id": oid})]. *)
Definition find_one (coll : string) (oid : ObjectId.t)
    : database → outcome (option document) * database :=
  round_trip (FindOne coll) (λ d, (first_with_id oid (collection d coll), d)).

(** [db[coll].find_one_and_update({"_id": oid}, {"$set": fields},
    return_document=True)]: gives the document after the update. *)
Definition find_one_and_update (coll : string) (oid : ObjectId.t) (fields : document)
    : database → outcome (option document) * database :=
  round_trip (FindOneAndUpdate coll) (λ d,
    let docs := set_first oid fields (collection d coll) in
    (first_with_id oid docs,
     match first_with_id oid (collection d coll) with
     | Some _ => set_collection coll docs d
     | None => d
     end)).

(** [db[coll].delete_one({"_id": oid})]. *)
Definition delete_one (coll : string) (oid : ObjectId.t)
    : database → outcome unit * database :=
  round_trip (DeleteOne coll) (λ d,
    (tt,
     match first_with_id oid (collection d coll) with
     | Some _ => set_collection coll (remove_first oid (collection d coll)) d
     | None => d
     end)).

(** ** Handler bodies: store state and exceptions

    The body of a handler runs against the store behind a handle that
    is not [None].  An exception stops the body; what was written to the
    store before it stays written. *)

Definition M (A : Type) : Type := database → result A * database.

#[global] Instance M_ret : MRet M := λ A a d, (Ok a, d).

#[global] Instance M_bind : MBind M := λ A B k m d,
  match m d with
  | (Ok a, d') => k a d'
  | (Raise e, d') => (Raise e, d')
  end.

Definition raise {A} (e : exn) : M A := λ d, (Raise e, d).

(** A computation without store access, such as a validation. *)
Definition lift {A} (r : result A) : M A := λ d, (r, d).

(** A driver call made outside any [try]: its exception leaves the
    handler. *)
Definition driver {A} (op : database → outcome A * database) : M A := λ d,
  match op d with
  | (Done a, d') => (Ok a, d')
  | (Failed text, d') => (Raise (PyMongoError text), d')
  end.

(** A list comprehension whose element expression may raise. *)
Fixpoint comprehension {A B} (f : A → result B) (l : list A) : result (list B) :=
  match l with
  | [] => Ok []
  | x :: r =>
      match f x with
      | Raise e => Raise e
      | Ok y => match comprehension f r with
                | Raise e => Raise e
                | Ok ys => Ok (y :: ys)
                end
      end
  end.

(** [for x in l: body(x)]. *)
Fixpoint for_each {A} (body : A → M unit) (l : list A) : M unit :=
  match l with
  | [] => mret tt
  | x :: r => _ ← body x; for_each body r
  end.

(** The guard every store-backed handler starts with:
    [if db is None: raise HTTPException(500, ...)]. *)
Definition with_db {A} (body : M A) (db : option database)
    : result A * option database :=
  match db with
  | None => (Raise (HTTPException 500 "Database not available"), None)
  | Some d => let '(r, d') := body d in (r, Some d')
  end.

(** ** Schemas *)

(** Field validation of the schema library (lax mode): a text field
    takes text only; a boolean field takes a boolean, the integers 0 and
    1, and the usual spellings of true and false in any case. *)
Definition validate_str (v : value) : option string :=
  match v with
  | VStr s => Some s
  | _ => None
  end.

Definition lower (c : ascii) : ascii :=
  let n := N_of_ascii c in
  if (65 <=? n)%N && (n <=? 90)%N then ascii_of_N (n + 32) else c.

Fixpoint lowercase (s : string) : string :=
  match s with
  | EmptyString => EmptyString
  | String c r => String (lower c) (lowercase r)
  end.

Definition validate_bool (v : value) : option bool :=
  match v with
  | VBool b => Some b
  | VInt 0 => Some false
  | VInt 1 => Some true
  | VStr s =>
      let s := lowercase s in
      if bool_decide (s ∈ ["0"; "off"; "f"; "false"; "n"; "no"]) then Some false
      else if bool_decide (s ∈ ["1"; "on"; "t"; "true"; "y"; "yes"]) then Some true
      else None
  | _ => None
  end.

(** The name of a field whose value was refused. *)
Definition refused {A} (k : string) (o : option A) : list string :=
  match o with
  | Some _ => []
  | None => [k]
  end.

(** The response model declared in [main.py]. *)
Module AssetOut.

Record t := mk {
  id : string;
  title : string;
  image_url : string;
  prompt : string;
  is_active : bool
}.

(** [AssetOut(id=.., title=.., image_url=.., prompt=.., is_active=..)]:
    every argument is validated against its field; the error names the
    fields that were refused. *)
Definition new (id title image_url prompt is_active : value) : result t :=
  let i := validate_str id in
  let t := validate_str title in
  let u := validate_str image_url in
  let p := validate_str prompt in
  let a := validate_bool is_active in
  match i, t, u, p, a with
  | Some i, Some t, Some u, Some p, Some a => Ok (mk i t u p a)
  | _, _, _, _, _ =>
      Raise (ValidationError
        (refused "id" i ++ refused "title" t ++ refused "image_url" u ++
         refused "prompt" p ++ refused "is_active" a))
  end.

(** The JSON object sent for a value of the response model: its
    fields, in declaration order. *)
Definition model_dump (a : t) : list (string * value) :=
  [("id", VStr (id a)); ("title", VStr (title a)); ("image_url", VStr (image_url a));
   ("prompt", VStr (prompt a)); ("is_active", VBool (is_active a))].

End AssetOut.

(** Modelled from the spec: the create payload [Asset] of [schemas.py],
    which is not among the sources.  Section 4.1: it requires [title],
    [image_url] and [prompt] as text; [is_active] is optional and
    defaults to true, so a validated payload always carries it. *)
Module Asset.

Record t := mk {
  title : string;
  image_url : string;
  prompt : string;
  is_active : bool
}.

Definition model_dump (a : t) : document :=
  {[ "title" := VStr (title a); "image_url" := VStr (image_url a);
     "prompt" := VStr (prompt a); "is_active" := VBool (is_active a) ]}.

End Asset.

(** Modelled from the spec: the patch payload [AssetUpdate] of
    [schemas.py], which is not among the sources.  Section 4.1: every
    field is optional.  A field of the request is left out, sent as
    null, or sent with a value. *)
Module AssetUpdate.

Inductive field (A : Type) :=
  | Unset
  | Null
  | Given (a : A).
Arguments Unset {A}.
Arguments Null {A}.
Arguments Given {A} a.

Record t := mk {
  title : field string;
  image_url : field string;
  prompt : field string;
  is_active : field bool
}.

(** One entry of [model_dump(exclude_unset=True)]: a field that was
    left out has none. *)
Definition entry {A} (k : string) (inj : A → value) (f : field A) (m : document)
    : document :=
  match f with
  | Unset => m
  | Null => <[k := VNone]> m
  | Given a => <[k := inj a]> m
  end.

(** [patch.model_dump(exclude_unset=True)]. *)
Definition model_dump_exclude_unset (p : t) : document :=
  entry "title" VStr (title p)
    (entry "image_url" VStr (image_url p)
      (entry "prompt" VStr (prompt p)
        (entry "is_active" VBool (is_active p) ∅))).

End AssetUpdate.

(** ** The persistence helpers of [database.py] *)

(** Modelled from the spec: [create_document] of [database.py], which is
    not among the sources.  Section 4.2: it inserts one record and
    returns the generated identifier; the side effect is one new
    document.  The identifier is returned in its text form, which
    [create_asset] turns back into an ObjectId. *)
Definition create_document (coll : string) (record : document) : M string :=
  driver (round_trip (InsertOne coll) (λ d,
    let oid := ObjectId.generate (inserted d) in
    let doc := <["_id" := VOid oid]> record in
    (ObjectId.to_str oid,
     mk_database (name d) (<[coll := collection d coll ++ [doc]]> (collections d))
                 (inserted d + 1) (down d) (calls d)))).

(** Modelled from the spec: [get_documents] of [database.py], which is
    not among the sources.  Section 4.2: it produces up to [limit]
    matching records in the store's native order, and is read-only.
    The handlers pass the empty filter, which every record matches. *)
Definition get_documents (coll : string) (limit : nat) : M (list document) :=
  driver (find coll limit).

(** ** The route handlers of [main.py] *)

(** [_serialize_asset(doc)].  [doc] is [None] when a [find_one] found
    nothing; [None] has no method [get]. *)
Definition _serialize_asset (doc : option document) : result AssetOut.t :=
  match doc with
  | None => Raise (AttributeError "'NoneType' object has no attribute 'get'")
  | Some doc =>
      AssetOut.new
        (VStr (py_str (get doc "_id")))
        (get doc "title")
        (get doc "image_url")
        (get doc "prompt")
        (get_or doc "is_active" (VBool true))
  end.

(** [GET /]. *)
Definition read_root : gmap string string :=
  {[ "message" := "Assets API running" ]}.

(** The values of the diagnostic object. *)
Inductive json :=
  | JNull
  | JStr (s : string)
  | JList (l : list string).

(** [GET /test].  [DATABASE_URL] is the environment variable of that
    name.  Of what the outer [try] runs, only the driver call can
    raise, and the inner [try] catches it. *)
Definition test_database (DATABASE_URL : option string) (db : option database)
    : gmap string json * option database :=
  let response : gmap string json :=
    {[ "backend" := JStr "✅ Running";
       "database" := JStr "❌ Not Available";
       "database_url" := JNull;
       "database_name" := JNull;
       "connection_status" := JStr "Not Connected";
       "collections" := JList [] ]} in
  match db with
  | Some d =>
      let response := <["database" := JStr "✅ Available"]> response in
      let response :=
        <["database_url" :=
            JStr (match DATABASE_URL with
                  | Some (String _ _) => "✅ Set"
                  | _ => "❌ Not Set"
                  end)]> response in
      let response := <["database_name" := JStr (name d)]> response in
      let response := <["connection_status" := JStr "Connected"]> response in
      match list_collection_names d with
      | (Done collections, d') =>
          let response := <["collections" := JList (take 10 collections)]> response in
          let response := <["database" := JStr "✅ Connected & Working"]> response in
          (response, Some d')
      | (Failed text, d') =>
          (<["database" := JStr ("⚠️  Connected but Error: " ++ String.substring 0 50 text)]>
             response, Some d')
      end
  | None =>
      (<["database" := JStr "⚠️  Available but not initialized"]> response, None)
  end.

(** The two texts every demo record carries. *)
Definition demo_image_url : string :=
  "https://images.unsplash.com/photo-1518779578993-ec3579fee39f?w=800&q=80&auto=format&fit=crop".

Definition demo_prompt : string :=
  "A futuristic UI with glowing panels and soft gradients".

(** The demo records of the seed route: the dictionary built for [i],
    for [i] in [range(8)]. *)
Definition demo_document (i : nat) : document :=
  {[ "title" := VStr ("Sample #" ++ pretty (i + 1));
     "image_url" := VStr demo_image_url;
     "prompt" := VStr demo_prompt;
     "is_active" := VBool true ]}.

Definition demo : list document := demo_document <$> seq 0 8.

(** [POST /api/assets/seed]. *)
Definition seed_assets : option database → result (list AssetOut.t) * option database :=
  with_db (
    existing ← driver (find "asset" 1);
    match existing with
    | _ :: _ =>
        docs ← driver (find "asset" 24);
        lift (comprehension (λ doc, _serialize_asset (Some doc)) docs)
    | [] =>
        _ ← for_each (λ d, _ ← create_document "asset" d; mret tt) demo;
        docs ← driver (find "asset" 24);
        lift (comprehension (λ doc, _serialize_asset (Some doc)) docs)
    end).

(** [GET /api/assets]. *)
Definition list_assets : option database → result (list AssetOut.t) * option database :=
  with_db (
    docs ← get_documents "asset" 100;
    lift (comprehension (λ doc, _serialize_asset (Some doc)) docs)).

(** The last two lines of [create_asset]: the re-read by the generated
    identifier, whose result goes to the serializer as it is. *)
Definition create_asset_reread (inserted_id : string) : M AssetOut.t :=
  match ObjectId.parse inserted_id with
  | None => raise (InvalidId inserted_id)
  | Some oid =>
      doc ← driver (find_one "asset" oid);
      lift (_serialize_asset doc)
  end.

(** [POST /api/assets]. *)
Definition create_asset (asset : Asset.t) : option database → result AssetOut.t * option database :=
  with_db (
    inserted_id ← create_document "asset" (Asset.model_dump asset);
    create_asset_reread inserted_id).

(** [{k: v for k, v in patch.model_dump(exclude_unset=True).items()
      if v is not None}]. *)
Definition update_data (patch : AssetUpdate.t) : document :=
  filter (λ kv, kv.2 ≠ VNone) (AssetUpdate.model_dump_exclude_unset patch).

(** [PATCH /api/assets/{asset_id}].  [utcnow] is the clock reading of
    the request. *)
Definition update_asset (utcnow : datetime) (asset_id : string) (patch : AssetUpdate.t)
    : option database → result AssetOut.t * option database :=
  with_db (
    match ObjectId.parse asset_id with
    | None => raise (HTTPException 400 "Invalid asset id")
    | Some oid =>
        let update_data := update_data patch in
        if decide (update_data = ∅) then raise (HTTPException 400 "No changes provided")
        else
          let update_data := <["updated_at" := VDate utcnow]> update_data in
          res ← driver (find_one_and_update "asset" oid update_data);
          doc ← driver (find_one "asset" oid);
          match doc with
          | None => raise (HTTPException 404 "Asset not found")
          | Some d =>
              if decide (d = ∅) then raise (HTTPException 404 "Asset not found")
              else lift (_serialize_asset doc)
          end
    end).

(** [DELETE /api/assets/{asset_id}]. *)
Definition delete_asset (asset_id : string)
    : option database → result (gmap string string) * option database :=
  with_db (
    match ObjectId.parse asset_id with
    | None => raise (HTTPException 400 "Invalid asset id")
    | Some oid =>
        _ ← driver (delete_one "asset" oid);
        mret {[ "status" := "ok" ]}
    end).

(** * Properties *)

(** The documents behind a handle, by collection; a null handle has none. *)
Definition stored (db : option database) : gmap string (list document) :=
  match db with
  | Some d => collections d
  | None => ∅
  end.

(** An equation between computable terms is settled by evaluating both
    sides. *)
Ltac by_evaluation :=
  lazymatch goal with
  | |- ?lhs = ?rhs => vm_cast_no_check (eq_refl rhs)
  end.

(** Sample inputs for the worked instances below. *)
Definition clock0 : datetime := mk_datetime 2024 5 17 9 30 0 0.

Definition empty_store : database := mk_database "appdb" ∅ 0 None [].



Definition deactivate : AssetUpdate.t :=
  AssetUpdate.mk AssetUpdate.Unset AssetUpdate.Unset AssetUpdate.Unset (AssetUpdate.Given false).

(** The store after a first seed of the empty store. *)
Definition seeded_store : database :=
  default empty_store (seed_assets (Some empty_store)).2.

Definition seeded : option database := Some seeded_store.

(** The value a field of the patch contributes to the update, if any. *)
Definition effective {A} (inj : A → value) (f : AssetUpdate.field A) : option value :=
  match f with
  | AssetUpdate.Given a => Some (inj a)
  | _ => None
  end.

(** The documents as the store keeps them when they are inserted one
    after the other, the first of them under the identifier number [n]. *)
Fixpoint with_ids (n : N) (docs : list document) : list document :=
  match docs with
  | [] => []
  | doc :: rest => <["_id" := VOid (ObjectId.generate n)]> doc :: with_ids (n + 1) rest
  end.

(** What the seed route sends for the demo record [i] when the first
    of them was inserted under the identifier number [n]. *)
Definition demo_out (n : N) (i : nat) : AssetOut.t :=
  AssetOut.mk
    (ObjectId.to_str (ObjectId.generate (n + N.of_nat i)))
    ("Sample #" ++ pretty (i + 1))
    demo_image_url
    demo_prompt
    true.

(** A text is not in a list of other texts. *)
Ltac not_listed :=
  let Hin := fresh "Hin" in
  intros Hin;
  repeat (apply elem_of_cons in Hin as [Hin | Hin]; [discriminate Hin |]);
  by apply elem_of_nil in Hin.

(** The identifiers of a list of documents, in order; [None] for a
    document without one. *)
Definition ids (docs : list document) : list (option value) :=
  (λ doc : document, doc !! "_id") <$> docs.

(** How many documents carry the identifier. *)
Fixpoint count_id (oid : ObjectId.t) (docs : list document) : nat :=
  match docs with
  | [] => 0
  | doc :: rest => (if has_id oid doc then 1 else 0) + count_id oid rest
  end.

(** A patch field with a null taken for a field that was left out. *)
Definition drop_null {A} (f : AssetUpdate.field A) : AssetUpdate.field A :=
  match f with
  | AssetUpdate.Null => AssetUpdate.Unset
  | _ => f
  end.

Definition without_nulls (p : AssetUpdate.t) : AssetUpdate.t :=
  AssetUpdate.mk (drop_null (AssetUpdate.title p)) (drop_null (AssetUpdate.image_url p))
    (drop_null (AssetUpdate.prompt p)) (drop_null (AssetUpdate.is_active p)).

(** The value of a field after a patch: the one given, else the old one. *)
Definition patched {A} (f : AssetUpdate.field A) (old : A) : A :=
  match f with
  | AssetUpdate.Given a => a
  | _ => old
  end.

(** The driver calls made so far through a handle. *)
Definition calls_of (db : option database) : list store_call :=
  match db with
  | Some d => calls d
  | None => []
  end.

(** The store after [create_document] has inserted [record]. *)
Definition after_insert (record : document) (d : database) : database :=
  mk_database (name d)
    (<["asset" := collection d "asset"
                  ++ [<["_id" := VOid (ObjectId.generate (inserted d))]> record]]>
       (collections d))
    (inserted d + 1) (down d) (InsertOne "asset" :: calls d).

(** A valid identifier shape: 24 hexadecimal digits. *)
Definition valid_identifier_shape (s : string) : Prop :=
  String.length s = 24 ∧
  ∀ c, c ∈ list_ascii_of_string s → is_Some (ObjectId.hexval c).

(** A character that is neither a hexadecimal digit nor white space. *)
Definition foreign (c : ascii) : Prop :=
  ObjectId.hexval c = None ∧ ObjectId.isspace c = false.

(** A text that is no identifier by its length or by a character that
    has no place in one. *)
Definition malformed (s : string) : Prop :=
  String.length s ≠ 24 ∨ ∃ c, c ∈ list_ascii_of_string s ∧ foreign c.

(** ** Running a handler body *)

Lemma bind_ok {A B} (m : M A) (k : A → M B) d a d' :
  m d = (Ok a, d') → (m ≫= k) d = k a d'.
Proof. intros H. unfold mbind, M_bind. by rewrite H. Qed.

Lemma bind_raise {A B} (m : M A) (k : A → M B) d e d' :
  m d = (Raise e, d') → (m ≫= k) d = (Raise e, d').
Proof. intros H. unfold mbind, M_bind. by rewrite H. Qed.

(** ** The guards of PATCH and DELETE *)

Section Guards.

Variables (utcnow : datetime) (asset_id : string) (patch : AssetUpdate.t).

Lemma update_asset_null_handle :
  update_asset utcnow asset_id patch None
  = (Raise (HTTPException 500 "Database not available"), None).
Proof. reflexivity. Qed.

Lemma delete_asset_null_handle :
  delete_asset asset_id None
  = (Raise (HTTPException 500 "Database not available"), None).
Proof. reflexivity. Qed.

Lemma update_asset_malformed d :
  ObjectId.parse asset_id = None →
  update_asset utcnow asset_id patch (Some d)
  = (Raise (HTTPException 400 "Invalid asset id"), Some d).
Proof. intros H. unfold update_asset, with_db. by rewrite H. Qed.

Lemma delete_asset_malformed d :
  ObjectId.parse asset_id = None →
  delete_asset asset_id (Some d)
  = (Raise (HTTPException 400 "Invalid asset id"), Some d).
Proof. intros H. unfold delete_asset, with_db. by rewrite H. Qed.

Lemma update_asset_no_changes d oid :
  ObjectId.parse asset_id = Some oid →
  update_data patch = ∅ →
  update_asset utcnow asset_id patch (Some d)
  = (Raise (HTTPException 400 "No changes provided"), Some d).
Proof.
  intros Hid Hnone. unfold update_asset, with_db. rewrite Hid.
  by destruct (decide (update_data patch = ∅)).
Qed.

End Guards.

(** C9.  In PATCH and DELETE the check of the store handle comes before
    the identifier is parsed: with a null handle a request with a
    malformed id fails with status 500 and the detail of the missing
    store, not with status 400; and whenever either handler answers
    with the 400 of a malformed id, the handle was not null. *)
Theorem store_check_precedes_id_parsing utcnow asset_id patch :
  ObjectId.parse asset_id = None →
  (update_asset utcnow asset_id patch None).1
    = Raise (HTTPException 500 "Database not available") ∧
  (delete_asset asset_id None).1
    = Raise (HTTPException 500 "Database not available") ∧
  http_status (update_asset utcnow asset_id patch None).1 = 500 ∧
  http_status (delete_asset asset_id None).1 = 500 ∧
  (∀ db, (update_asset utcnow asset_id patch db).1
           = Raise (HTTPException 400 "Invalid asset id") → db ≠ None) ∧
  (∀ db, (delete_asset asset_id db).1
           = Raise (HTTPException 400 "Invalid asset id") → db ≠ None).
Proof.
  intros _. repeat split; try reflexivity.
  - intros [d|] H; [done | by rewrite update_asset_null_handle in H].
  - intros [d|] H; [done | by rewrite delete_asset_null_handle in H].
Qed.

Lemma store_check_precedes_id_parsing_witness :
  ObjectId.parse "not-an-id" = None ∧
  http_status (update_asset clock0 "not-an-id" deactivate None).1 = 500 ∧
  http_status (delete_asset "not-an-id" None).1 = 500 ∧
  (update_asset clock0 "not-an-id" deactivate seeded).1
    = Raise (HTTPException 400 "Invalid asset id").
Proof.
  split; [reflexivity |].
  destruct (store_check_precedes_id_parsing clock0 "not-an-id" deactivate)
    as (_ & _ & Hu & Hd & _); [reflexivity |].
  split; [exact Hu |]. split; [exact Hd |]. by_evaluation.
Defined.

(** C5, as stated, fails: with a null store handle a PATCH and a DELETE
    with a malformed id are answered with status 500, not 400. *)
Lemma malformed_id_null_handle_is_500 :
  ObjectId.parse "not-an-id" = None ∧
  update_asset clock0 "not-an-id" deactivate None
    = (Raise (HTTPException 500 "Database not available"), None) ∧
  delete_asset "not-an-id" None
    = (Raise (HTTPException 500 "Database not available"), None) ∧
  http_status (update_asset clock0 "not-an-id" deactivate None).1 ≠ 400 ∧
  http_status (delete_asset "not-an-id" None).1 ≠ 400.
Proof. repeat split; vm_compute; congruence. Qed.

(** What [bytes.fromhex] accepts is made of hexadecimal digits and
    white space only. *)
Lemma fromhex_characters n : ∀ s o,
  (String.length s ≤ n)%nat →
  ObjectId.fromhex s = Some o →
  ∀ c, c ∈ list_ascii_of_string s → ¬ foreign c.
Proof.
  induction n as [|n IH]; intros [|c1 r] o Hlen Hparse c Hin;
    try (by apply elem_of_nil in Hin); cbn in Hlen; [lia |].
  cbn [ObjectId.fromhex] in Hparse. cbn in Hin.
  destruct (ObjectId.isspace c1) eqn:Hspace.
  - apply elem_of_cons in Hin as [-> | Hin].
    + intros [_ Hno]. congruence.
    + apply (IH r o); [lia | done | done].
  - destruct r as [|c2 r]; [done |].
    destruct (ObjectId.hexval c1) as [h|] eqn:Hh; [| done].
    destruct (ObjectId.hexval c2) as [l|] eqn:Hl; [| done].
    destruct (ObjectId.fromhex r) as [o'|] eqn:Hrest; [| done].
    apply elem_of_cons in Hin as [-> | Hin]; [intros [Hno _]; congruence |].
    cbn in Hin. apply elem_of_cons in Hin as [-> | Hin];
      [intros [Hno _]; congruence |].
    cbn in Hlen. apply (IH r o'); [lia | done | done].
Qed.

(** The identifier check refuses every malformed text. *)
Lemma parse_malformed s : malformed s → ObjectId.parse s = None.
Proof.
  intros [Hlen | (c & Hin & Hc)]; unfold ObjectId.parse.
  - by destruct (decide (String.length s = 24)).
  - destruct (decide (String.length s = 24)); [| done].
    destruct (ObjectId.fromhex s) as [o|] eqn:Hparse; [| done].
    by destruct (fromhex_characters (String.length s) s o (le_n _) Hparse c Hin).
Qed.

Lemma malformed_not_valid s : malformed s → ¬ valid_identifier_shape s.
Proof.
  intros [Hlen | (c & Hin & Hno & _)] [Hlen' Hhex]; [done |].
  destruct (Hhex c Hin) as [h Hh]. congruence.
Qed.

(** C5, amended.  For every PATCH or DELETE request made while the
    store handle is not null and whose id is malformed, that is, does
    not have 24 characters or holds a character that is neither a
    hexadecimal digit nor white space: the id is not a valid identifier
    shape and the request fails with status 400 and the detail of an
    invalid id before any store call, so that the store behind the
    handle, the record of driver calls included, is what it was, and
    this also when the server cannot be reached.  Nothing is said of
    the texts of 24 characters made of hexadecimal digits and white
    space. *)
Theorem malformed_id_rejected_before_store utcnow asset_id patch (d : database) :
  malformed asset_id →
  ¬ valid_identifier_shape asset_id ∧
  update_asset utcnow asset_id patch (Some d)
    = (Raise (HTTPException 400 "Invalid asset id"), Some d) ∧
  delete_asset asset_id (Some d)
    = (Raise (HTTPException 400 "Invalid asset id"), Some d) ∧
  http_status (update_asset utcnow asset_id patch (Some d)).1 = 400 ∧
  http_status (delete_asset asset_id (Some d)).1 = 400 ∧
  calls (default d (update_asset utcnow asset_id patch (Some d)).2) = calls d ∧
  calls (default d (delete_asset asset_id (Some d)).2) = calls d.
Proof.
  intros Hbad. split; [by apply malformed_not_valid |].
  pose proof (parse_malformed _ Hbad) as H.
  rewrite (update_asset_malformed utcnow asset_id patch d H).
  rewrite (delete_asset_malformed asset_id d H). done.
Qed.

Lemma malformed_id_rejected_before_store_witness :
  (update_asset clock0 "65f0a1b2c3d4e5f60123456" deactivate (Some empty_store)
     = (Raise (HTTPException 400 "Invalid asset id"), Some empty_store) ∧
   delete_asset "65f0a1b2c3d4e5f60123456" (Some empty_store)
     = (Raise (HTTPException 400 "Invalid asset id"), Some empty_store)) ∧
  (update_asset clock0 "65f0a1b2c3d4e5f60123456g" deactivate seeded
     = (Raise (HTTPException 400 "Invalid asset id"), seeded) ∧
   delete_asset "65f0a1b2c3d4e5f60123456g" seeded
     = (Raise (HTTPException 400 "Invalid asset id"), seeded)).
Proof.
  split.
  - destruct (malformed_id_rejected_before_store clock0 "65f0a1b2c3d4e5f60123456"
                deactivate empty_store) as (_ & Hu & Hd & _).
    + left. cbn. lia.
    + split; [exact Hu | exact Hd].
  - destruct (malformed_id_rejected_before_store clock0 "65f0a1b2c3d4e5f60123456g"
                deactivate seeded_store) as (_ & Hu & Hd & _).
    + right. exists "g"%char. split; [| by split].
      cbn. do 23 apply list_elem_of_further. apply list_elem_of_here.
    + split; [exact Hu | exact Hd].
Defined.

(** A text of 24 characters that ends in white space is not a valid
    identifier shape, yet it passes the identifier check: with a handle
    that is not null, DELETE then calls the store and answers with
    status 200, and PATCH calls it twice and answers with 404. *)
Example white_space_id_reaches_the_store :
  ¬ valid_identifier_shape "0000000000000000000000  " ∧
  is_Some (ObjectId.parse "0000000000000000000000  ") ∧
  delete_asset "0000000000000000000000  " (Some empty_store)
    = (Ok {[ "status" := "ok" ]}, Some (record_call (DeleteOne "asset") empty_store)) ∧
  update_asset clock0 "0000000000000000000000  " deactivate (Some empty_store)
    = (Raise (HTTPException 404 "Asset not found"),
       Some (record_call (FindOne "asset")
               (record_call (FindOneAndUpdate "asset") empty_store))).
Proof.
  split; [| split; [by eexists | split; by_evaluation]].
  intros [_ Hhex]. destruct (Hhex " "%char) as [h Hh]; [| done].
  cbn. do 22 apply list_elem_of_further. apply list_elem_of_here.
Qed.




(** ** DELETE *)

Lemma round_trip_up {A} c (op : database → A * database) d :
  down d = None →
  round_trip c op d = (Done (op (record_call c d)).1, (op (record_call c d)).2).
Proof.
  intros Hup. unfold round_trip. cbn. rewrite Hup.
  by destruct (op (record_call c d)).
Qed.

Lemma round_trip_down {A} c (op : database → A * database) d text :
  down d = Some text →
  round_trip c op d = (Failed text, record_call c d).
Proof. intros Hdown. unfold round_trip. cbn. by rewrite Hdown. Qed.

Lemma collection_record_call c d coll :
  collection (record_call c d) coll = collection d coll.
Proof. reflexivity. Qed.

Lemma collection_set_collection coll docs d :
  collection (set_collection coll docs d) coll = docs.
Proof. unfold collection, set_collection. cbn. by rewrite lookup_insert_eq. Qed.

Lemma down_delete_one coll oid d :
  down (delete_one coll oid d).2 = down d.
Proof.
  destruct (down d) as [text|] eqn:Hd.
  - unfold delete_one. by rewrite (round_trip_down _ _ _ _ Hd).
  - unfold delete_one. rewrite (round_trip_up _ _ _ Hd). cbn.
    rewrite collection_record_call.
    by destruct (first_with_id oid (collection d coll)).
Qed.

Lemma delete_asset_up asset_id oid d :
  ObjectId.parse asset_id = Some oid →
  down d = None →
  delete_asset asset_id (Some d)
  = (Ok {[ "status" := "ok" ]},
     Some (delete_one "asset" oid d).2).
Proof.
  intros Hid Hup. unfold delete_asset, with_db. rewrite Hid.
  unfold mbind, M_bind, driver, delete_one.
  by rewrite (round_trip_up _ _ _ Hup).
Qed.

(** C6, as stated, fails: with a null store handle a DELETE with a
    valid-shaped id is answered with status 500, and so is one that
    reaches a store which does not answer. *)
Lemma delete_null_handle_is_500 :
  is_Some (ObjectId.parse "65f0a1b2c3d4e5f601234567") ∧
  delete_asset "65f0a1b2c3d4e5f601234567" None
    = (Raise (HTTPException 500 "Database not available"), None) ∧
  http_status (delete_asset "65f0a1b2c3d4e5f601234567" None).1 ≠ 200 ∧
  http_status
    (delete_asset "65f0a1b2c3d4e5f601234567"
       (Some (mk_database "appdb" ∅ 0 (Some "connection refused") []))).1 ≠ 200.
Proof. repeat split; try (vm_compute; congruence). by eexists. Qed.

(** C6, amended.  For every valid-shaped identifier, while the store
    handle is not null and the store answers, DELETE returns status 200
    with the body [{"status": "ok"}] whether or not a record with that
    identifier exists.  When none exists the stored documents are left
    as they were; when one exists the first such record is removed.
    The store still answers afterwards, so a repeated DELETE is again
    answered with status 200. *)
Theorem delete_asset_ok asset_id oid (d : database) :
  ObjectId.parse asset_id = Some oid →
  down d = None →
  ∃ d',
    delete_asset asset_id (Some d) = (Ok {[ "status" := "ok" ]}, Some d') ∧
    http_status (delete_asset asset_id (Some d)).1 = 200 ∧
    (first_with_id oid (collection d "asset") = None →
       collections d' = collections d) ∧
    (is_Some (first_with_id oid (collection d "asset")) →
       collection d' "asset" = remove_first oid (collection d "asset")) ∧
    (delete_asset asset_id (Some d')).1 = Ok {[ "status" := "ok" ]}.
Proof.
  intros Hid Hup. exists (delete_one "asset" oid d).2.
  rewrite (delete_asset_up _ _ _ Hid Hup).
  rewrite (delete_asset_up _ oid _ Hid) by by rewrite down_delete_one.
  split; [reflexivity |]. split; [reflexivity |].
  unfold delete_one. rewrite (round_trip_up _ _ _ Hup). cbn.
  rewrite collection_record_call.
  destruct (first_with_id oid (collection d "asset")) as [doc|] eqn:Hdoc.
  - split; [done |]. split; [| done].
    intros _. apply collection_set_collection.
  - split; [done |]. split; [| done]. by intros [? ?].
Qed.

Lemma delete_asset_ok_witness :
  (delete_asset "000000000000000000000003" seeded).1 = Ok {[ "status" := "ok" ]} ∧
  (delete_asset "0000000000000000000000ff" seeded).1 = Ok {[ "status" := "ok" ]} ∧
  stored (delete_asset "0000000000000000000000ff" seeded).2 = stored seeded.
Proof.
  destruct (delete_asset_ok "000000000000000000000003"
              (ObjectId.generate 3) seeded_store)
    as (d1 & H1 & _); [reflexivity | by_evaluation |].
  destruct (delete_asset_ok "0000000000000000000000ff"
              (ObjectId.generate 255) seeded_store)
    as (d2 & H2 & _ & Habsent & _); [reflexivity | by_evaluation |].
  unfold seeded. rewrite H1, H2. repeat split. cbn. apply Habsent.
  by_evaluation.
Defined.

(** ** PATCH *)

Lemma update_asset_up utcnow asset_id oid patch d :
  ObjectId.parse asset_id = Some oid →
  update_data patch ≠ ∅ →
  update_asset utcnow asset_id patch (Some d)
  = match find_one_and_update "asset" oid
            (<["updated_at" := VDate utcnow]> (update_data patch)) d with
    | (Failed text, d1) => (Raise (PyMongoError text), Some d1)
    | (Done res, d1) =>
        match find_one "asset" oid d1 with
        | (Failed text, d2) => (Raise (PyMongoError text), Some d2)
        | (Done None, d2) => (Raise (HTTPException 404 "Asset not found"), Some d2)
        | (Done (Some doc), d2) =>
            if decide (doc = ∅)
            then (Raise (HTTPException 404 "Asset not found"), Some d2)
            else (_serialize_asset (Some doc), Some d2)
        end
    end.
Proof.
  intros Hid Hsome. unfold update_asset, with_db. rewrite Hid.
  destruct (decide (update_data patch = ∅)) as [|_]; [done |].
  unfold mbind, M_bind, driver.
  destruct (find_one_and_update _ _ _ d) as [[res|text] d1]; [| done].
  destruct (find_one _ _ d1) as [[[doc|]|text] d2]; try done.
  unfold raise, lift. by destruct (decide (doc = ∅)).
Qed.

(** C7.  For every PATCH request with a valid-shaped id and a non-empty
    effective field set: when the update call has gone through and the
    re-read by that identifier finds no record, the request fails with
    status 404 and the detail that the asset was not found. *)
Theorem update_asset_not_found utcnow asset_id oid patch (d d1 d2 : database) res :
  ObjectId.parse asset_id = Some oid →
  update_data patch ≠ ∅ →
  find_one_and_update "asset" oid
    (<["updated_at" := VDate utcnow]> (update_data patch)) d = (Done res, d1) →
  find_one "asset" oid d1 = (Done None, d2) →
  update_asset utcnow asset_id patch (Some d)
    = (Raise (HTTPException 404 "Asset not found"), Some d2) ∧
  http_status (update_asset utcnow asset_id patch (Some d)).1 = 404.
Proof.
  intros Hid Hsome Hupd Hread.
  rewrite (update_asset_up _ _ _ _ _ Hid Hsome), Hupd, Hread. done.
Qed.

Lemma update_asset_not_found_witness :
  (update_asset clock0 "0000000000000000000000ff" deactivate seeded).1
    = Raise (HTTPException 404 "Asset not found") ∧
  stored (update_asset clock0 "0000000000000000000000ff" deactivate seeded).2
    = stored seeded.
Proof.
  pose (fields := <["updated_at" := VDate clock0]> (update_data deactivate)).
  destruct (update_asset_not_found clock0 "0000000000000000000000ff"
              (ObjectId.generate 255) deactivate seeded_store
              (find_one_and_update "asset" (ObjectId.generate 255) fields seeded_store).2
              (find_one "asset" (ObjectId.generate 255)
                 (find_one_and_update "asset" (ObjectId.generate 255) fields
                    seeded_store).2).2
              None) as [H _].
  - reflexivity.
  - intros E. apply (f_equal (lookup "is_active")) in E. vm_compute in E. discriminate E.
  - by_evaluation.
  - by_evaluation.
  - unfold seeded. rewrite H. split; [reflexivity | by_evaluation].
Defined.

(** *** What a partial update writes *)

Lemma update_data_lookup patch k :
  update_data patch !! k =
    if decide (k = "title") then effective VStr (AssetUpdate.title patch)
    else if decide (k = "image_url") then effective VStr (AssetUpdate.image_url patch)
    else if decide (k = "prompt") then effective VStr (AssetUpdate.prompt patch)
    else if decide (k = "is_active") then effective VBool (AssetUpdate.is_active patch)
    else None.
Proof.
  unfold update_data. rewrite map_lookup_filter.
  unfold AssetUpdate.model_dump_exclude_unset, AssetUpdate.entry.
  destruct patch as [[| |t] [| |u] [| |p] [| |a]]; cbn [effective
    AssetUpdate.title AssetUpdate.image_url AssetUpdate.prompt AssetUpdate.is_active];
    repeat case_decide; simplify_map_eq; try done;
    by rewrite option_guard_True.
Qed.

Lemma update_data_no_id patch : update_data patch !! "_id" = None.
Proof. rewrite update_data_lookup. by repeat case_decide. Qed.

Lemma update_data_no_updated_at patch : update_data patch !! "updated_at" = None.
Proof. rewrite update_data_lookup. by repeat case_decide. Qed.

(** *** The first record with an identifier *)

Lemma first_with_id_has_id oid docs doc :
  first_with_id oid docs = Some doc → has_id oid doc = true.
Proof.
  induction docs as [|x docs IH]; [done |]. cbn.
  destruct (has_id oid x) eqn:Hx; [| done]. by intros [= <-].
Qed.

Lemma first_with_id_split oid docs doc :
  first_with_id oid docs = Some doc →
  ∃ before after,
    docs = before ++ doc :: after ∧ first_with_id oid before = None.
Proof.
  induction docs as [|x docs IH]; [done |]. cbn.
  destruct (has_id oid x) eqn:Hx.
  - intros [= <-]. by exists [], docs.
  - intros Hdoc. destruct (IH Hdoc) as (before & after & -> & Hnone).
    exists (x :: before), after. cbn. by rewrite Hx.
Qed.

Lemma first_with_id_middle oid before doc after :
  first_with_id oid before = None →
  has_id oid doc = true →
  first_with_id oid (before ++ doc :: after) = Some doc.
Proof.
  intros Hnone Hdoc. induction before as [|x before IH]; cbn.
  - by rewrite Hdoc.
  - cbn in Hnone. destruct (has_id oid x); [done |]. by apply IH.
Qed.

Lemma set_first_middle oid fields before doc after :
  first_with_id oid before = None →
  has_id oid doc = true →
  set_first oid fields (before ++ doc :: after) = before ++ (fields ∪ doc) :: after.
Proof.
  intros Hnone Hdoc. induction before as [|x before IH]; cbn.
  - by rewrite Hdoc.
  - cbn in Hnone. destruct (has_id oid x); [done |]. by rewrite IH.
Qed.

Lemma has_id_union oid (fields doc : document) :
  fields !! "_id" = None → has_id oid (fields ∪ doc) = has_id oid doc.
Proof. intros Hf. unfold has_id. by rewrite lookup_union_r. Qed.

Lemma only_is_active patch :
  dom (update_data patch) = {["is_active"]} →
  ∃ b, AssetUpdate.is_active patch = AssetUpdate.Given b ∧
       update_data patch = {[ "is_active" := VBool b ]}.
Proof.
  intros Hdom.
  assert (Hin : ∀ k, is_Some (update_data patch !! k) ↔ k = "is_active").
  { intros k. rewrite <- elem_of_dom, Hdom. apply elem_of_singleton. }
  destruct (proj2 (Hin "is_active") eq_refl) as [v Hv].
  rewrite update_data_lookup in Hv. cbn in Hv.
  destruct (AssetUpdate.is_active patch) as [| |b] eqn:Hb; try done.
  exists b. split; [done |]. apply map_eq. intros k.
  destruct (decide (k = "is_active")) as [->|Hk].
  - rewrite lookup_singleton_eq, update_data_lookup. cbn. by rewrite Hb.
  - rewrite lookup_singleton_ne by done.
    destruct (update_data patch !! k) eqn:Hl; [| done].
    destruct Hk. apply Hin. by eexists.
Qed.

(** C2.  For every existing asset and every PATCH request with a
    non-empty effective field set, answered by a store that can be
    reached: the first record with that identifier is replaced in
    place, every other record and every other collection is left as it
    was, the new record carries the fields of the effective set and
    [updated_at], and every other field of it is what it was.  When the
    effective set holds [is_active] only, the new record is the old one
    with [is_active] and [updated_at] written, so its [title],
    [image_url] and [prompt] are unchanged. *)
Theorem update_asset_frame utcnow asset_id oid patch (d : database) (doc : document) :
  down d = None →
  ObjectId.parse asset_id = Some oid →
  first_with_id oid (collection d "asset") = Some doc →
  update_data patch ≠ ∅ →
  ∃ (d' : database) (doc' : document) (before after : list document),
    update_asset utcnow asset_id patch (Some d)
      = (_serialize_asset (Some doc'), Some d') ∧
    collection d "asset" = before ++ doc :: after ∧
    collection d' "asset" = before ++ doc' :: after ∧
    first_with_id oid before = None ∧
    (∀ coll, coll ≠ "asset" → collections d' !! coll = collections d !! coll) ∧
    doc' !! "updated_at" = Some (VDate utcnow) ∧
    (∀ k v, update_data patch !! k = Some v → doc' !! k = Some v) ∧
    (∀ k, update_data patch !! k = None → k ≠ "updated_at" →
          doc' !! k = doc !! k) ∧
    (effective VStr (AssetUpdate.title patch) = None →
       doc' !! "title" = doc !! "title") ∧
    (effective VStr (AssetUpdate.image_url patch) = None →
       doc' !! "image_url" = doc !! "image_url") ∧
    (effective VStr (AssetUpdate.prompt patch) = None →
       doc' !! "prompt" = doc !! "prompt") ∧
    (effective VBool (AssetUpdate.is_active patch) = None →
       doc' !! "is_active" = doc !! "is_active") ∧
    (dom (update_data patch) = {["is_active"]} →
       ∃ b, AssetUpdate.is_active patch = AssetUpdate.Given b ∧
            doc' = <["updated_at" := VDate utcnow]> (<["is_active" := VBool b]> doc) ∧
            doc' !! "title" = doc !! "title" ∧
            doc' !! "image_url" = doc !! "image_url" ∧
            doc' !! "prompt" = doc !! "prompt").
Proof.
  intros Hup Hid Hdoc Hsome.
  set (fields := <["updated_at" := VDate utcnow]> (update_data patch)).
  assert (Hnoid : fields !! "_id" = None).
  { unfold fields. rewrite lookup_insert_ne by done. apply update_data_no_id. }
  pose proof (first_with_id_has_id _ _ _ Hdoc) as Hhas.
  destruct (first_with_id_split _ _ _ Hdoc) as (before & after & Hdocs & Hnone).
  assert (Hhas' : has_id oid (fields ∪ doc) = true) by by rewrite has_id_union.
  set (docs' := before ++ (fields ∪ doc) :: after).
  set (d1 := set_collection "asset" docs' (record_call (FindOneAndUpdate "asset") d)).
  exists (record_call (FindOne "asset") d1), (fields ∪ doc), before, after.
  assert (Hcall : update_asset utcnow asset_id patch (Some d)
                  = (_serialize_asset (Some (fields ∪ doc)),
                     Some (record_call (FindOne "asset") d1))).
  { rewrite (update_asset_up _ _ _ _ _ Hid Hsome). fold fields.
    unfold find_one_and_update. rewrite (round_trip_up _ _ _ Hup). cbn [fst snd].
    rewrite collection_record_call, Hdoc, Hdocs.
    rewrite (set_first_middle _ _ _ _ _ Hnone Hhas). fold docs' d1.
    unfold find_one. rewrite (round_trip_up _ _ d1) by done. cbn [fst snd].
    rewrite collection_record_call. unfold d1 at 1.
    rewrite collection_set_collection. unfold docs' at 1.
    rewrite (first_with_id_middle _ _ _ _ Hnone Hhas').
    destruct (decide (fields ∪ doc = ∅)) as [Hempty|]; [| done].
    apply (f_equal (lookup "updated_at")) in Hempty.
    rewrite lookup_empty, lookup_union_l' in Hempty; [| by unfold fields; rewrite lookup_insert_eq].
    unfold fields in Hempty. by rewrite lookup_insert_eq in Hempty. }
  split; [exact Hcall |]. split; [exact Hdocs |].
  split; [apply collection_set_collection |]. split; [exact Hnone |].
  assert (Hframe : ∀ k, update_data patch !! k = None → k ≠ "updated_at" →
                        (fields ∪ doc) !! k = doc !! k).
  { intros k Hk Hne. apply lookup_union_r. unfold fields.
    by rewrite lookup_insert_ne. }
  split; [| split; [| split; [| split; [exact Hframe |]]]].
  - intros coll Hcoll. cbn. by rewrite lookup_insert_ne.
  - apply lookup_union_Some_l. unfold fields. by rewrite lookup_insert_eq.
  - intros k v Hk. apply lookup_union_Some_l. unfold fields.
    rewrite lookup_insert_ne; [done |]. intros <-.
    by rewrite update_data_no_updated_at in Hk.
  - repeat (split; [intros Hunset; apply Hframe; [| done];
                    by rewrite update_data_lookup |]).
    intros Hdom. destruct (only_is_active _ Hdom) as (b & Hb & Hdata).
    exists b. split; [exact Hb |].
    assert (Hnew : fields ∪ doc
                   = <["updated_at" := VDate utcnow]> (<["is_active" := VBool b]> doc)).
    { unfold fields. rewrite Hdata.
      by rewrite <- insert_union_l, <- insert_union_singleton_l. }
    split; [exact Hnew |]. rewrite Hnew.
    by rewrite !lookup_insert_ne.
Qed.

Lemma update_asset_frame_witness :
  ∃ (d' : database) (doc' : document),
    update_asset clock0 "000000000000000000000003" deactivate seeded
      = (_serialize_asset (Some doc'), Some d') ∧
    doc' !! "title" = Some (VStr "Sample #4") ∧
    doc' !! "is_active" = Some (VBool false) ∧
    doc' !! "updated_at" = Some (VDate clock0).
Proof.
  pose (doc := default (∅ : document)
                 (first_with_id (ObjectId.generate 3) (collection seeded_store "asset"))).
  destruct (update_asset_frame clock0 "000000000000000000000003"
              (ObjectId.generate 3) deactivate seeded_store doc)
    as (d' & doc' & before & after & Hcall & _ & _ & _ & _ & Hat & Hset & _ &
        _ & _ & _ & _ & Honly).
  - by_evaluation.
  - reflexivity.
  - by_evaluation.
  - intros E. apply (f_equal (lookup "is_active")) in E. vm_compute in E. discriminate E.
  - exists d', doc'. split; [exact Hcall |].
    destruct Honly as (b & _ & _ & Htitle & _); [by_evaluation |].
    split; [rewrite Htitle; by_evaluation |].
    split; [apply Hset; by_evaluation | exact Hat].
Defined.

(** ** Seeding *)

Lemma with_ids_length n docs : List.length (with_ids n docs) = List.length docs.
Proof. revert n. induction docs as [|doc docs IH]; intros n; cbn; [done | by rewrite IH]. Qed.

Lemma driver_find_up coll n d :
  down d = None →
  driver (find coll n) d = (Ok (take n (collection d coll)), record_call (Find coll) d).
Proof. intros Hup. unfold driver, find. by rewrite (round_trip_up _ _ _ Hup). Qed.

Lemma driver_find_down coll n d text :
  down d = Some text →
  driver (find coll n) d = (Raise (PyMongoError text), record_call (Find coll) d).
Proof. intros Hdown. unfold driver, find. by rewrite (round_trip_down _ _ _ _ Hdown). Qed.

Lemma create_document_up coll record d :
  down d = None →
  create_document coll record d
  = (Ok (ObjectId.to_str (ObjectId.generate (inserted d))),
     mk_database (name d)
       (<[coll := collection d coll ++ [<["_id" := VOid (ObjectId.generate (inserted d))]> record]]>
          (collections d))
       (inserted d + 1) (down d) (InsertOne coll :: calls d)).
Proof.
  intros Hup. unfold create_document, driver. by rewrite (round_trip_up _ _ _ Hup).
Qed.

(** Inserting a list of records appends them, in order, under
    consecutive identifiers, and touches no other collection. *)
Lemma create_documents_up docs : ∀ d,
  down d = None →
  ∃ d',
    for_each (λ doc, _ ← create_document "asset" doc; mret tt) docs d = (Ok tt, d') ∧
    collection d' "asset" = collection d "asset" ++ with_ids (inserted d) docs ∧
    (∀ coll, coll ≠ "asset" → collections d' !! coll = collections d !! coll) ∧
    down d' = None.
Proof.
  induction docs as [|doc docs IH]; intros d Hup.
  - exists d. cbn. by rewrite app_nil_r.
  - cbn [for_each]. unfold mbind at 1, M_bind at 1. unfold mbind at 1, M_bind at 1.
    rewrite (create_document_up _ _ _ Hup). cbn [mret M_ret].
    match goal with |- context [for_each _ docs ?d1] => destruct (IH d1) as (d' & Hrun & Hdocs & Hother & Hup') end.
    { done. }
    exists d'. rewrite Hrun. split; [done |]. split; [| split; [| done]].
    + rewrite Hdocs. unfold collection at 1. cbn.
      rewrite lookup_insert_eq. cbn. by rewrite <- app_assoc.
    + intros coll Hcoll. rewrite (Hother coll Hcoll). cbn. by rewrite lookup_insert_ne.
Qed.

Lemma serialize_with_id (doc : document) oid t u p a :
  doc !! "title" = Some (VStr t) →
  doc !! "image_url" = Some (VStr u) →
  doc !! "prompt" = Some (VStr p) →
  doc !! "is_active" = Some (VBool a) →
  _serialize_asset (Some (<["_id" := VOid oid]> doc))
  = Ok (AssetOut.mk (ObjectId.to_str oid) t u p a).
Proof.
  intros Ht Hu Hp Ha. unfold _serialize_asset, get, get_or.
  rewrite lookup_insert_eq, !lookup_insert_ne by done.
  by rewrite Ht, Hu, Hp, Ha.
Qed.

Lemma serialize_demo k : ∀ s n,
  comprehension (λ doc, _serialize_asset (Some doc))
    (with_ids (n + N.of_nat s) (demo_document <$> seq s k))
  = Ok (demo_out n <$> seq s k).
Proof.
  induction k as [|k IH]; intros s n; [done |].
  cbn [seq fmap list_fmap with_ids comprehension].
  rewrite (serialize_with_id (demo_document s) _
             ("Sample #" ++ pretty (s + 1)) demo_image_url demo_prompt true)
    by by_evaluation.
  replace (n + N.of_nat s + 1)%N with (n + N.of_nat (S s))%N by lia.
  change (list_fmap _ _ demo_document (seq (S s) k)) with (demo_document <$> seq (S s) k).
  by rewrite IH.
Qed.

Lemma seed_assets_down d text :
  down d = Some text →
  seed_assets (Some d)
  = (Raise (PyMongoError text), Some (record_call (Find "asset") d)).
Proof.
  intros Hdown. unfold seed_assets, with_db.
  by erewrite bind_raise by apply (driver_find_down _ _ _ _ Hdown).
Qed.

Lemma seed_assets_nonempty d :
  down d = None →
  collection d "asset" ≠ [] →
  seed_assets (Some d)
  = (comprehension (λ doc, _serialize_asset (Some doc)) (take 24 (collection d "asset")),
     Some (record_call (Find "asset") (record_call (Find "asset") d))).
Proof.
  intros Hup Hsome. unfold seed_assets, with_db.
  erewrite bind_ok by apply (driver_find_up _ _ _ Hup).
  destruct (collection d "asset") as [|doc docs] eqn:Hdocs; [done |].
  cbn [take]. erewrite bind_ok by by apply driver_find_up.
  unfold lift. by rewrite collection_record_call, Hdocs.
Qed.

Lemma seed_assets_empty d :
  down d = None →
  collection d "asset" = [] →
  ∃ d',
    seed_assets (Some d) = (Ok (demo_out (inserted d) <$> seq 0 8), Some d') ∧
    collection d' "asset" = with_ids (inserted d) demo ∧
    (∀ coll, coll ≠ "asset" → collections d' !! coll = collections d !! coll) ∧
    down d' = None.
Proof.
  intros Hup Hnone.
  destruct (create_documents_up demo (record_call (Find "asset") d) Hup)
    as (d1 & Hrun & Hdocs & Hother & Hup1).
  rewrite collection_record_call, Hnone, app_nil_l in Hdocs.
  change (inserted (record_call (Find "asset") d)) with (inserted d) in Hdocs.
  exists (record_call (Find "asset") d1).
  split; [| split; [exact Hdocs | split; [| exact Hup1]]].
  - unfold seed_assets, with_db.
    erewrite bind_ok by apply (driver_find_up _ _ _ Hup).
    rewrite Hnone. cbn [take].
    erewrite bind_ok by exact Hrun.
    erewrite bind_ok by apply (driver_find_up _ _ _ Hup1).
    unfold lift.
    rewrite take_ge by (rewrite Hdocs, with_ids_length; cbn; lia).
    rewrite Hdocs. unfold demo.
    rewrite <- (N.add_0_r (inserted d)) at 1. change 0%N with (N.of_nat 0).
    by rewrite serialize_demo.
  - intros coll Hcoll. cbn. by rewrite (Hother coll Hcoll).
Qed.

(** A second seed never changes what is stored, whatever the first one
    met: a null handle, a store that does not answer, an empty or a
    filled collection. *)
Lemma seed_assets_twice db :
  stored (seed_assets (seed_assets db).2).2 = stored (seed_assets db).2.
Proof.
  destruct db as [d|]; [| done].
  destruct (down d) as [text|] eqn:Hd.
  - rewrite (seed_assets_down _ _ Hd). cbn [snd].
    by rewrite (seed_assets_down _ text).
  - destruct (collection d "asset") as [|doc docs] eqn:Hdocs.
    + destruct (seed_assets_empty d Hd Hdocs) as (d' & -> & Hd' & _ & Hup').
      cbn [snd]. rewrite seed_assets_nonempty; [done | done |].
      rewrite Hd'. discriminate.
    + rewrite seed_assets_nonempty by (by rewrite ?Hdocs).
      cbn [snd]. rewrite seed_assets_nonempty; [done | done |].
      rewrite !collection_record_call. by rewrite Hdocs.
Qed.

(** C1.  The seed route is idempotent.  For a store that can be
    reached: when the asset collection is empty, seeding inserts the 8
    demo records and nothing else, and returns them, which are the
    first 24 records; when it is not empty, seeding inserts nothing and
    returns the first 24 existing records; and a second seed leaves
    stored what the first one left. *)
Theorem seed_assets_idempotent (d : database) :
  down d = None →
  (collection d "asset" = [] →
     ∃ d',
       seed_assets (Some d) = (Ok (demo_out (inserted d) <$> seq 0 8), Some d') ∧
       collection d' "asset" = with_ids (inserted d) demo ∧
       List.length (collection d' "asset") = 8 ∧
       comprehension (λ doc, _serialize_asset (Some doc))
         (take 24 (collection d' "asset"))
         = Ok (demo_out (inserted d) <$> seq 0 8) ∧
       (∀ coll, coll ≠ "asset" → collections d' !! coll = collections d !! coll)) ∧
  (collection d "asset" ≠ [] →
     ∃ d',
       seed_assets (Some d)
         = (comprehension (λ doc, _serialize_asset (Some doc))
              (take 24 (collection d "asset")), Some d') ∧
       collections d' = collections d) ∧
  stored (seed_assets (seed_assets (Some d)).2).2 = stored (seed_assets (Some d)).2.
Proof.
  intros Hup. split; [| split].
  - intros Hnone.
    destruct (seed_assets_empty d Hup Hnone) as (d' & Hrun & Hdocs & Hother & _).
    exists d'. split; [exact Hrun |]. split; [exact Hdocs |].
    split; [by rewrite Hdocs, with_ids_length |]. split; [| exact Hother].
    rewrite take_ge by (rewrite Hdocs, with_ids_length; cbn; lia).
    rewrite Hdocs. unfold demo.
    rewrite <- (N.add_0_r (inserted d)) at 1. change 0%N with (N.of_nat 0).
    apply serialize_demo.
  - intros Hsome. eexists. by rewrite (seed_assets_nonempty d Hup Hsome).
  - apply seed_assets_twice.
Qed.

Lemma seed_assets_idempotent_witness :
  (seed_assets (Some empty_store)).1 = Ok (demo_out 0 <$> seq 0 8) ∧
  List.length (collection seeded_store "asset") = 8 ∧
  (seed_assets seeded).1 = Ok (demo_out 0 <$> seq 0 8) ∧
  stored (seed_assets seeded).2 = stored seeded.
Proof.
  destruct (seed_assets_idempotent empty_store) as (Hempty & _ & Htwice);
    [reflexivity |].
  destruct Hempty as (d' & Hrun & _ & Hlen & Hout & _); [reflexivity |].
  destruct (seed_assets_idempotent seeded_store) as (_ & Hfilled & _);
    [by_evaluation |].
  destruct Hfilled as (d2 & Hrun2 & Hsame).
  { intros E. apply (f_equal List.length) in E. vm_compute in E. discriminate E. }
  assert (Hd' : seeded_store = d').
  { unfold seeded_store. by rewrite Hrun. }
  split; [by rewrite Hrun |]. split; [by rewrite Hd' |].
  rewrite Hrun in Htwice. cbn [snd] in Htwice.
  unfold seeded. split; [| by rewrite Hd'].
  rewrite Hrun2. cbn [fst]. rewrite Hd'. exact Hout.
Defined.

(** ** Serialization *)

Lemma new_refuses i t u p a :
  validate_str t = None ∨ validate_str u = None ∨ validate_str p = None →
  AssetOut.new i t u p a
  = Raise (ValidationError
      (refused "id" (validate_str i) ++ refused "title" (validate_str t) ++
       refused "image_url" (validate_str u) ++ refused "prompt" (validate_str p) ++
       refused "is_active" (validate_bool a))).
Proof.
  unfold AssetOut.new.
  destruct (validate_str i), (validate_str t), (validate_str u),
    (validate_str p), (validate_bool a); intros [H | [H | H]]; done.
Qed.

Lemma new_accepts i t u p a out :
  AssetOut.new i t u p a = Ok out →
  validate_str i = Some (AssetOut.id out) ∧
  validate_str t = Some (AssetOut.title out) ∧
  validate_str u = Some (AssetOut.image_url out) ∧
  validate_str p = Some (AssetOut.prompt out) ∧
  validate_bool a = Some (AssetOut.is_active out).
Proof.
  unfold AssetOut.new.
  destruct (validate_str i), (validate_str t), (validate_str u),
    (validate_str p), (validate_bool a); try discriminate.
  by intros [= <-].
Qed.

Lemma validate_str_Some v s : validate_str v = Some s → v = VStr s.
Proof. destruct v; try discriminate. by intros [= ->]. Qed.

(** C3.  For every stored document: whatever the serializer gives out
    carries exactly the fields [id], [title], [image_url], [prompt] and
    [is_active], in text for the first four and as a boolean for the
    last, so neither [_id] nor [updated_at] is among them; the texts
    are those of the document, [id] is the text form of its [_id], and
    [is_active] is true when the document has no such field.  And the
    serializer does give an output for every document that has [title],
    [image_url] and [prompt] as text and [is_active] as a boolean or not
    at all. *)
Theorem serialize_asset_shape (doc : document) :
  (∀ out, _serialize_asset (Some doc) = Ok out →
     (AssetOut.model_dump out).*1 = ["id"; "title"; "image_url"; "prompt"; "is_active"] ∧
     Forall (λ kv, if decide (kv.1 = "is_active")
                   then ∃ b, kv.2 = VBool b else ∃ s, kv.2 = VStr s)
            (AssetOut.model_dump out) ∧
     ("_id" ∉ (AssetOut.model_dump out).*1) ∧
     ("updated_at" ∉ (AssetOut.model_dump out).*1) ∧
     AssetOut.id out = py_str (get doc "_id") ∧
     doc !! "title" = Some (VStr (AssetOut.title out)) ∧
     doc !! "image_url" = Some (VStr (AssetOut.image_url out)) ∧
     doc !! "prompt" = Some (VStr (AssetOut.prompt out)) ∧
     (doc !! "is_active" = None → AssetOut.is_active out = true)) ∧
  (∀ t u p,
     doc !! "title" = Some (VStr t) →
     doc !! "image_url" = Some (VStr u) →
     doc !! "prompt" = Some (VStr p) →
     (doc !! "is_active" = None ∨ ∃ b, doc !! "is_active" = Some (VBool b)) →
     _serialize_asset (Some doc)
       = Ok (AssetOut.mk (py_str (get doc "_id")) t u p
               (if doc !! "is_active" is Some (VBool b) then b else true))).
Proof.
  split.
  - intros out Hout. unfold _serialize_asset in Hout.
    apply new_accepts in Hout as (Hi & Ht & Hu & Hp & Ha).
    apply validate_str_Some in Ht, Hu, Hp. unfold get in Ht, Hu, Hp.
    split; [done |]. split.
    { unfold AssetOut.model_dump.
      repeat (apply List.Forall_cons; [cbn; by eexists |]). apply List.Forall_nil. }
    split; [cbn; not_listed |]. split; [cbn; not_listed |].
    split; [by injection Hi |].
    split; [by destruct (doc !! "title") as [v|]; cbn in Ht; subst |].
    split; [by destruct (doc !! "image_url") as [v|]; cbn in Hu; subst |].
    split; [by destruct (doc !! "prompt") as [v|]; cbn in Hp; subst |].
    intros Hnone. unfold get_or in Ha. rewrite Hnone in Ha. by injection Ha.
  - intros t u p Ht Hu Hp Ha.
    unfold _serialize_asset, get_or. unfold get at 2 3 4. rewrite Ht, Hu, Hp.
    by destruct Ha as [-> | [b ->]].
Qed.

Lemma serialize_asset_shape_witness :
  _serialize_asset (Some (demo_document 0))
    = Ok (AssetOut.mk "None" "Sample #1" demo_image_url demo_prompt true) ∧
  _serialize_asset (Some (delete "is_active" (demo_document 0)))
    = Ok (AssetOut.mk "None" "Sample #1" demo_image_url demo_prompt true).
Proof.
  destruct (serialize_asset_shape (demo_document 0)) as [_ Hfull].
  destruct (serialize_asset_shape (delete "is_active" (demo_document 0)))
    as [_ Hlacking].
  split.
  - rewrite (Hfull "Sample #1" demo_image_url demo_prompt); try by_evaluation.
    right. exists true. by_evaluation.
  - rewrite (Hlacking "Sample #1" demo_image_url demo_prompt); try by_evaluation.
    left. by_evaluation.
Defined.

(** C10.  The serializer is not total.  When the document handed to it
    is absent, or lacks [title], [image_url] or [prompt], it raises an
    exception that is not an [HTTPException], so that none of the
    specified error categories applies and the framework answers with a
    plain status 500.  [create_asset] hands the result of its re-read
    to the serializer unguarded: when the re-read finds such a
    document, or none, that exception leaves the handler. *)
Theorem serializer_not_total (doc : option document) :
  (doc = None ∨
   ∃ d, doc = Some d ∧
        (d !! "title" = None ∨ d !! "image_url" = None ∨ d !! "prompt" = None)) →
  ∃ e,
    _serialize_asset doc = Raise e ∧
    (∀ status_code detail, e ≠ HTTPException status_code detail) ∧
    http_status (_serialize_asset doc) = 500 ∧
    (∀ inserted_id oid (d d' : database),
       ObjectId.parse inserted_id = Some oid →
       find_one "asset" oid d = (Done doc, d') →
       create_asset_reread inserted_id d = (Raise e, d')).
Proof.
  intros Hbad.
  assert (He : ∃ e, _serialize_asset doc = Raise e ∧
                    ∀ status_code detail, e ≠ HTTPException status_code detail).
  { destruct Hbad as [-> | (d & -> & Hmiss)]; [by eexists |].
    unfold _serialize_asset. rewrite new_refuses; [by eexists |].
    unfold get. destruct Hmiss as [H | [H | H]]; rewrite H; auto. }
  destruct He as (e & He & Hnot). exists e.
  split; [exact He |]. split; [exact Hnot |]. split.
  - rewrite He. destruct e; try done. by destruct (Hnot status_code detail).
  - intros inserted_id oid d d' Hid Hread. unfold create_asset_reread.
    rewrite Hid. erewrite bind_ok; [| unfold driver; by rewrite Hread].
    unfold lift. by rewrite He.
Qed.

Lemma serializer_not_total_witness :
  _serialize_asset None
    = Raise (AttributeError "'NoneType' object has no attribute 'get'") ∧
  (create_asset_reread "0000000000000000000000ff" seeded_store).1
    = Raise (AttributeError "'NoneType' object has no attribute 'get'").
Proof.
  destruct (serializer_not_total None) as (e & He & _ & _ & Hreread);
    [by left |].
  injection He as <-. split; [reflexivity |].
  by rewrite (Hreread "0000000000000000000000ff" (ObjectId.generate 255) seeded_store
                (find_one "asset" (ObjectId.generate 255) seeded_store).2
                eq_refl ltac:(by_evaluation)).
Defined.

(** ** The diagnostic route *)




(** A store whose call raises with a text of 60 characters: the first
    50 of them are shown. *)
Example test_database_down :
  (test_database (Some "mongodb://db:27017")
     (Some (mk_database "appdb" ∅ 0
        (Some "0123456789012345678901234567890123456789012345678901234567890") []))).1
    !! "database"
  = Some (JStr "⚠️  Connected but Error: 01234567890123456789012345678901234567890123456789").
Proof. by_evaluation. Qed.

Example test_database_seeded :
  (test_database None seeded).1 !! "collections" = Some (JList ["asset"]) ∧
  (test_database None seeded).1 !! "database_url" = Some (JStr "❌ Not Set").
Proof. split; by_evaluation. Qed.

(** ** Creating and listing *)

(** The example of the specification: a payload without [is_active] is
    validated with the default, stored under a generated identifier and
    sent back; listing then includes it. *)
Example create_then_list :
  let created := create_asset (Asset.mk "X" "http://i" "p" true) (Some empty_store) in
  created.1 = Ok (AssetOut.mk "000000000000000000000000" "X" "http://i" "p" true) ∧
  (list_assets created.2).1
    = Ok [AssetOut.mk "000000000000000000000000" "X" "http://i" "p" true].
Proof. split; by_evaluation. Qed.

(** An identifier the store generates is read back from its text form. *)
Example generated_id_round_trip :
  ObjectId.parse (ObjectId.to_str (ObjectId.generate 1234567))
  = Some (ObjectId.generate 1234567).
Proof. reflexivity. Qed.

(** Text of 24 characters that ends in white space is taken for an
    identifier of 11 bytes; text with a letter outside a..f is not an
    identifier. *)
Example parse_shapes :
  ObjectId.parse "0000000000000000000000  " = Some (replicate 11 0%N) ∧
  ObjectId.parse "00000000000000000000000g" = None ∧
  ObjectId.parse "abc" = None.
Proof. repeat split. Qed.

(** * Further properties of the handlers *)

(** ** The serializer *)

Lemma new_outcome i t u p a :
  (∃ out, AssetOut.new i t u p a = Ok out) ∨
  (∃ fields, AssetOut.new i t u p a = Raise (ValidationError fields) ∧ fields ≠ []).
Proof.
  unfold AssetOut.new.
  destruct (validate_str i), (validate_str t), (validate_str u),
    (validate_str p), (validate_bool a); (by left; eexists) || (right; by eexists).
Qed.

Lemma new_refuses_any i t u p a :
  validate_str t = None ∨ validate_str u = None ∨ validate_str p = None ∨
  validate_bool a = None →
  AssetOut.new i t u p a
  = Raise (ValidationError
      (refused "id" (validate_str i) ++ refused "title" (validate_str t) ++
       refused "image_url" (validate_str u) ++ refused "prompt" (validate_str p) ++
       refused "is_active" (validate_bool a))).
Proof.
  unfold AssetOut.new.
  destruct (validate_str i), (validate_str t), (validate_str u),
    (validate_str p), (validate_bool a); intros [H | [H | [H | H]]]; done.
Qed.

(** X1.  A stored null is refused.  When a document holds a null under
    [title], [image_url], [prompt] or [is_active], the serializer
    raises a validation error that names that field; for [is_active]
    the default applies to a missing key only, not to a null.  And for
    a document that is present the serializer raises validation errors
    and no other exception. *)
Theorem serialize_asset_refuses_null (doc : document) :
  (∀ k, k ∈ ["title"; "image_url"; "prompt"; "is_active"] →
        doc !! k = Some VNone →
        ∃ fields, _serialize_asset (Some doc) = Raise (ValidationError fields) ∧
                  k ∈ fields) ∧
  (∀ e, _serialize_asset (Some doc) = Raise e →
        ∃ fields, e = ValidationError fields ∧ fields ≠ []).
Proof.
  split.
  - intros k Hk Hnull. unfold _serialize_asset.
    assert (Hrefused :
              validate_str (get doc "title") = None ∨
              validate_str (get doc "image_url") = None ∨
              validate_str (get doc "prompt") = None ∨
              validate_bool (get_or doc "is_active" (VBool true)) = None).
    { unfold get, get_or.
      repeat (apply elem_of_cons in Hk as [-> | Hk];
              [rewrite Hnull; cbn; auto 10 |]).
      by apply elem_of_nil in Hk. }
    rewrite (new_refuses_any _ _ _ _ _ Hrefused).
    eexists. split; [reflexivity |]. unfold get, get_or.
    repeat (apply elem_of_cons in Hk as [-> | Hk];
            [rewrite Hnull; cbn; rewrite ?elem_of_app, ?elem_of_cons; auto 10 |]).
    by apply elem_of_nil in Hk.
  - intros e He. unfold _serialize_asset in He.
    destruct (new_outcome (VStr (py_str (get doc "_id"))) (get doc "title")
                (get doc "image_url") (get doc "prompt")
                (get_or doc "is_active" (VBool true)))
      as [[out Hout] | (fields & Hf & Hne)].
    + by rewrite Hout in He.
    + rewrite Hf in He. injection He as <-. by exists fields.
Qed.

Lemma serialize_asset_refuses_null_witness :
  (∃ fields,
     _serialize_asset (Some (<["is_active" := VNone]> (demo_document 0)))
     = Raise (ValidationError fields) ∧ "is_active" ∈ fields) ∧
  _serialize_asset (Some (delete "is_active" (demo_document 0)))
    = Ok (AssetOut.mk "None" "Sample #1" demo_image_url demo_prompt true).
Proof.
  split; [| by_evaluation].
  destruct (serialize_asset_refuses_null (<["is_active" := VNone]> (demo_document 0)))
    as [Hnull _].
  apply (Hnull "is_active"); [| by_evaluation].
  do 3 apply list_elem_of_further. apply list_elem_of_here.
Defined.

(** X2.  The output of the serializer depends on the five keys it reads
    and on nothing else: two documents that agree on [_id], [title],
    [image_url], [prompt] and [is_active] are serialized alike,
    whatever else they hold. *)
Theorem serialize_asset_reads_five_keys (doc1 doc2 : document) :
  doc1 !! "_id" = doc2 !! "_id" →
  doc1 !! "title" = doc2 !! "title" →
  doc1 !! "image_url" = doc2 !! "image_url" →
  doc1 !! "prompt" = doc2 !! "prompt" →
  doc1 !! "is_active" = doc2 !! "is_active" →
  _serialize_asset (Some doc1) = _serialize_asset (Some doc2).
Proof.
  intros Hi Ht Hu Hp Ha. unfold _serialize_asset, get, get_or.
  by rewrite Hi, Ht, Hu, Hp, Ha.
Qed.

Lemma serialize_asset_reads_five_keys_witness :
  _serialize_asset
    (Some (<["updated_at" := VDate clock0]> (<["owner" := VStr "ann"]> (demo_document 2))))
  = _serialize_asset (Some (demo_document 2)).
Proof.
  apply serialize_asset_reads_five_keys; by_evaluation.
Defined.

(** ** Listing *)

Lemma comprehension_length {A B} (f : A → result B) l ys :
  comprehension f l = Ok ys → List.length ys = List.length l.
Proof.
  revert ys. induction l as [|x l IH]; intros ys; cbn.
  - by intros [= <-].
  - destruct (f x); [| done]. destruct (comprehension f l); [| done].
    intros [= <-]. cbn. by rewrite (IH _ eq_refl).
Qed.

Lemma comprehension_raises {A B} (f : A → result B) l x e :
  x ∈ l → f x = Raise e →
  ∃ x' e', x' ∈ l ∧ f x' = Raise e' ∧ comprehension f l = Raise e'.
Proof.
  intros Hin Hx. induction l as [|y l IH]; [by apply elem_of_nil in Hin |].
  cbn. destruct (f y) as [b|e1] eqn:Hy.
  - apply elem_of_cons in Hin as [-> | Hin]; [congruence |].
    destruct (IH Hin) as (x' & e' & Hin' & Hx' & ->).
    exists x', e'. split; [by apply list_elem_of_further | done].
  - exists y, e1. split; [apply list_elem_of_here | done].
Qed.

Lemma comprehension_app {A B} (f : A → result B) l1 l2 ys1 ys2 :
  comprehension f l1 = Ok ys1 →
  comprehension f l2 = Ok ys2 →
  comprehension f (l1 ++ l2) = Ok (ys1 ++ ys2).
Proof.
  revert ys1. induction l1 as [|x l1 IH]; intros ys1; cbn.
  - by intros [= <-] ->.
  - destruct (f x); [| done]. destruct (comprehension f l1); [| done].
    intros [= <-] H2. by rewrite (IH _ eq_refl H2).
Qed.

Lemma list_assets_up d :
  down d = None →
  list_assets (Some d)
  = (comprehension (λ doc, _serialize_asset (Some doc)) (take 100 (collection d "asset")),
     Some (record_call (Find "asset") d)).
Proof.
  intros Hup. unfold list_assets, with_db, get_documents.
  by erewrite bind_ok by apply (driver_find_up _ _ _ Hup).
Qed.

Lemma list_assets_down d text :
  down d = Some text →
  list_assets (Some d)
  = (Raise (PyMongoError text), Some (record_call (Find "asset") d)).
Proof.
  intros Hdown. unfold list_assets, with_db, get_documents.
  by erewrite bind_raise by apply (driver_find_down _ _ _ _ Hdown).
Qed.

(** X3.  [GET /api/assets] only reads: whatever the handle, the state
    of the store and the outcome of the request, the stored documents
    are afterwards what they were.  When it answers with a list, there
    is a store behind the handle, the list is the serialization of the
    first 100 documents of the asset collection in store order, and it
    has as many entries as the collection has documents, 100 at most. *)
Theorem list_assets_reads_first_100 (db : option database) :
  stored (list_assets db).2 = stored db ∧
  ∀ outs,
    (list_assets db).1 = Ok outs →
    ∃ d, db = Some d ∧
         comprehension (λ doc, _serialize_asset (Some doc))
           (take 100 (collection d "asset")) = Ok outs ∧
         List.length outs = List.length (collection d "asset") `min` 100 ∧
         (List.length outs ≤ 100)%nat.
Proof.
  destruct db as [d|]; [| done].
  destruct (down d) as [text|] eqn:Hd.
  { by rewrite (list_assets_down _ _ Hd). }
  rewrite (list_assets_up _ Hd). cbn [fst snd].
  split; [done |]. intros outs Hout.
  exists d. split; [done |]. split; [exact Hout |].
  apply comprehension_length in Hout. rewrite length_take in Hout. lia.
Qed.

Lemma list_assets_reads_first_100_witness :
  (list_assets seeded).1 = Ok (demo_out 0 <$> seq 0 8) ∧
  stored (list_assets seeded).2 = stored seeded ∧
  stored (list_assets
            (Some (mk_database "appdb"
               {[ "asset" := [delete "title" (demo_document 1)] ]} 1 None []))).2
  = {[ "asset" := [delete "title" (demo_document 1)] ]}.
Proof.
  destruct (list_assets_reads_first_100 seeded) as [Hsame _].
  destruct (list_assets_reads_first_100
              (Some (mk_database "appdb"
                 {[ "asset" := [delete "title" (demo_document 1)] ]} 1 None [])))
    as [Hbad _].
  split; [by_evaluation |]. split; [exact Hsame | exact Hbad].
Defined.

(** X4.  One document among the first 100 that lacks [title],
    [image_url] or [prompt] makes the whole listing fail: the answer is
    a validation error, hence a plain status 500, and no list at all,
    however many of the other documents are in order. *)
Theorem list_assets_fails_on_one_bad_document (d : database) (doc : document) :
  down d = None →
  doc ∈ take 100 (collection d "asset") →
  doc !! "title" = None ∨ doc !! "image_url" = None ∨ doc !! "prompt" = None →
  ∃ fields,
    (list_assets (Some d)).1 = Raise (ValidationError fields) ∧
    http_status (list_assets (Some d)).1 = 500.
Proof.
  intros Hup Hin Hbad. rewrite (list_assets_up _ Hup). cbn [fst].
  assert (Hdoc : ∃ e, _serialize_asset (Some doc) = Raise e).
  { unfold _serialize_asset. rewrite new_refuses; [by eexists |].
    unfold get. destruct Hbad as [H | [H | H]]; rewrite H; auto. }
  destruct Hdoc as [e He].
  destruct (comprehension_raises (λ x : document, _serialize_asset (Some x))
              _ doc e Hin He) as (doc' & e' & _ & He' & ->).
  unfold _serialize_asset in He'.
  destruct (new_outcome (VStr (py_str (get doc' "_id"))) (get doc' "title")
              (get doc' "image_url") (get doc' "prompt")
              (get_or doc' "is_active" (VBool true)))
    as [[out Hout] | (fields & Hf & _)].
  - by rewrite Hout in He'.
  - rewrite Hf in He'. injection He' as <-. by exists fields.
Qed.

Lemma list_assets_fails_on_one_bad_document_witness :
  ∃ fields,
    (list_assets
       (Some (mk_database "appdb"
          {[ "asset" := [demo_document 0; delete "title" (demo_document 1);
                         demo_document 2] ]} 3 None []))).1
    = Raise (ValidationError fields).
Proof.
  destruct (list_assets_fails_on_one_bad_document
              (mk_database "appdb"
                 {[ "asset" := [demo_document 0; delete "title" (demo_document 1);
                                demo_document 2] ]} 3 None [])
              (delete "title" (demo_document 1))) as (fields & Hrun & _).
  - reflexivity.
  - replace (take 100 _) with [demo_document 0; delete "title" (demo_document 1);
                               demo_document 2] by by_evaluation.
    apply list_elem_of_further, list_elem_of_here.
  - left. by_evaluation.
  - by exists fields.
Defined.

(** X5.  When the seed route answers with a list, the list has at least
    one and at most 24 entries. *)
Theorem seed_assets_returns_1_to_24 (db : option database) outs :
  (seed_assets db).1 = Ok outs →
  (1 ≤ List.length outs ≤ 24)%nat.
Proof.
  destruct db as [d|]; [| done].
  destruct (down d) as [text|] eqn:Hd.
  { by rewrite (seed_assets_down _ _ Hd). }
  destruct (collection d "asset") as [|doc docs] eqn:Hdocs.
  - destruct (seed_assets_empty d Hd Hdocs) as (d' & -> & _).
    cbn [fst]. intros [= <-]. cbn. lia.
  - rewrite seed_assets_nonempty by (by rewrite ?Hdocs).
    cbn [fst]. intros Hout. apply comprehension_length in Hout.
    rewrite length_take, Hdocs in Hout.
    change (List.length (doc :: docs)) with (S (List.length docs)) in Hout. lia.
Qed.

Lemma seed_assets_returns_1_to_24_witness :
  (1 ≤ List.length (demo_out 0 <$> seq 0 8) ≤ 24)%nat.
Proof.
  apply (seed_assets_returns_1_to_24 (Some empty_store)). by_evaluation.
Defined.

(** ** Creating *)

Lemma hexdigit_read h :
  (h < 16)%N →
  ObjectId.hexval (ObjectId.hexdigit h) = Some h ∧
  ObjectId.isspace (ObjectId.hexdigit h) = false.
Proof.
  intros Hh.
  assert (Hcases : h ∈ N.of_nat <$> seq 0 16).
  { apply list_elem_of_fmap. exists (N.to_nat h). split; [lia |].
    apply elem_of_seq. lia. }
  cbn in Hcases.
  repeat (apply elem_of_cons in Hcases as [-> | Hcases]; [by split |]).
  by apply elem_of_nil in Hcases.
Qed.

Lemma to_str_length o :
  String.length (ObjectId.to_str o) = 2 * List.length o.
Proof. induction o as [|b o IH]; cbn; [done |]. rewrite IH. lia. Qed.

Lemma fromhex_to_str o :
  Forall (λ b, (b < 256)%N) o →
  ObjectId.fromhex (ObjectId.to_str o) = Some o.
Proof.
  induction 1 as [|b o Hb _ IH]; [done |].
  assert (Hhi : (b / 16 < 16)%N) by (apply N.Div0.div_lt_upper_bound; lia).
  assert (Hlo : (b mod 16 < 16)%N) by (apply N.mod_lt; lia).
  destruct (hexdigit_read _ Hhi) as [Hvh Hsh].
  destruct (hexdigit_read _ Hlo) as [Hvl _].
  cbn [ObjectId.to_str ObjectId.fromhex]. rewrite Hsh, Hvh, Hvl, IH. cbn.
  do 2 f_equal. rewrite (N.div_mod b 16) at 3 by lia. lia.
Qed.

Lemma be_bytes_length k n : List.length (ObjectId.be_bytes k n) = k.
Proof.
  revert n. induction k as [|k IH]; intros n; cbn; [done |].
  rewrite length_app, IH. cbn. lia.
Qed.

Lemma be_bytes_small k n : Forall (λ b, (b < 256)%N) (ObjectId.be_bytes k n).
Proof.
  revert n. induction k as [|k IH]; intros n; cbn; [constructor |].
  apply Forall_app. split; [apply IH |].
  constructor; [| constructor]. apply N.mod_lt. lia.
Qed.

(** The text of an identifier the store generates is read back as that
    identifier. *)
Lemma parse_generate n :
  ObjectId.parse (ObjectId.to_str (ObjectId.generate n)) = Some (ObjectId.generate n).
Proof.
  unfold ObjectId.parse, ObjectId.generate.
  rewrite to_str_length, be_bytes_length.
  destruct (decide (2 * 12 = 24)) as [_|]; [| done].
  apply fromhex_to_str, be_bytes_small.
Qed.

Lemma driver_find_one_up coll oid d :
  down d = None →
  driver (find_one coll oid) d
  = (Ok (first_with_id oid (collection d coll)), record_call (FindOne coll) d).
Proof. intros Hup. unfold driver, find_one. by rewrite (round_trip_up _ _ _ Hup). Qed.

Lemma has_id_insert oid (doc : document) :
  has_id oid (<["_id" := VOid oid]> doc) = true.
Proof. unfold has_id. rewrite lookup_insert_eq. by apply bool_decide_eq_true. Qed.

Lemma collection_after_insert record d :
  collection (after_insert record d) "asset"
  = collection d "asset"
    ++ [<["_id" := VOid (ObjectId.generate (inserted d))]> record].
Proof. unfold collection at 1, after_insert. cbn. by rewrite lookup_insert_eq. Qed.

Lemma create_asset_up asset d :
  down d = None →
  first_with_id (ObjectId.generate (inserted d)) (collection d "asset") = None →
  create_asset asset (Some d)
  = (Ok (AssetOut.mk (ObjectId.to_str (ObjectId.generate (inserted d)))
           (Asset.title asset) (Asset.image_url asset) (Asset.prompt asset)
           (Asset.is_active asset)),
     Some (record_call (FindOne "asset") (after_insert (Asset.model_dump asset) d))).
Proof.
  intros Hup Hfresh. unfold create_asset, with_db.
  erewrite bind_ok by apply (create_document_up _ _ _ Hup).
  fold (after_insert (Asset.model_dump asset) d).
  unfold create_asset_reread. rewrite parse_generate.
  erewrite bind_ok by by apply driver_find_one_up.
  unfold lift. f_equal. rewrite collection_after_insert.
  rewrite (first_with_id_middle _ _ _ [] Hfresh (has_id_insert _ _)).
  apply serialize_with_id; by_evaluation.
Qed.

(** X6.  [POST /api/assets] on a store that answers and in which the
    next identifier is not in use: the payload is stored as one new
    document at the end of the asset collection, under the generated
    identifier, no other collection is touched, and the answer carries
    that identifier in text form together with the four fields of the
    payload. *)
Theorem create_asset_returns_created (asset : Asset.t) (d : database) :
  down d = None →
  first_with_id (ObjectId.generate (inserted d)) (collection d "asset") = None →
  ∃ d',
    create_asset asset (Some d)
      = (Ok (AssetOut.mk (ObjectId.to_str (ObjectId.generate (inserted d)))
               (Asset.title asset) (Asset.image_url asset) (Asset.prompt asset)
               (Asset.is_active asset)), Some d') ∧
    collection d' "asset"
      = collection d "asset"
        ++ [<["_id" := VOid (ObjectId.generate (inserted d))]> (Asset.model_dump asset)] ∧
    (∀ coll, coll ≠ "asset" → collections d' !! coll = collections d !! coll) ∧
    ObjectId.parse (ObjectId.to_str (ObjectId.generate (inserted d)))
      = Some (ObjectId.generate (inserted d)).
Proof.
  intros Hup Hfresh. eexists. split; [by apply create_asset_up |].
  split; [| split; [| apply parse_generate]].
  - by rewrite collection_record_call, collection_after_insert.
  - intros coll Hcoll. cbn. by rewrite lookup_insert_ne.
Qed.

Lemma create_asset_returns_created_witness :
  (create_asset (Asset.mk "X" "http://i" "p" true) seeded).1
  = Ok (AssetOut.mk "000000000000000000000008" "X" "http://i" "p" true).
Proof.
  destruct (create_asset_returns_created (Asset.mk "X" "http://i" "p" true) seeded_store)
    as (d' & Hrun & _); [by_evaluation | by_evaluation |].
  unfold seeded. rewrite Hrun. by_evaluation.
Defined.

Lemma remove_first_none oid docs :
  first_with_id oid docs = None → remove_first oid docs = docs.
Proof.
  induction docs as [|doc docs IH]; [done |]. cbn.
  destruct (has_id oid doc); [done |]. intros H. by rewrite IH.
Qed.

Lemma remove_first_middle oid before doc after :
  first_with_id oid before = None →
  has_id oid doc = true →
  remove_first oid (before ++ doc :: after) = before ++ after.
Proof.
  intros Hnone Hdoc. induction before as [|x before IH]; cbn.
  - by rewrite Hdoc.
  - cbn in Hnone. destruct (has_id oid x); [done |]. by rewrite IH.
Qed.

Lemma collection_delete_one oid d :
  down d = None →
  collection (delete_one "asset" oid d).2 "asset"
  = remove_first oid (collection d "asset").
Proof.
  intros Hup. unfold delete_one. rewrite (round_trip_up _ _ _ Hup). cbn [snd].
  rewrite collection_record_call.
  destruct (first_with_id oid (collection d "asset")) eqn:Hdoc.
  - apply collection_set_collection.
  - by rewrite remove_first_none.
Qed.

Lemma others_delete_one oid d coll :
  coll ≠ "asset" →
  collections (delete_one "asset" oid d).2 !! coll = collections d !! coll.
Proof.
  intros Hcoll. unfold delete_one, round_trip. cbn.
  destruct (down d); [done |]. cbn. rewrite collection_record_call.
  destruct (first_with_id oid (collection d "asset")); [| done].
  cbn. by rewrite lookup_insert_ne.
Qed.

(** X7.  An asset that was just created is listed: on a store that
    answers, holds fewer than 100 assets, all of them serializable, and
    has the next identifier free, [GET /api/assets] after
    [POST /api/assets] returns the old list followed by the asset that
    the POST returned. *)
Theorem create_then_list_includes (asset : Asset.t) (d : database) outs :
  down d = None →
  first_with_id (ObjectId.generate (inserted d)) (collection d "asset") = None →
  comprehension (λ doc, _serialize_asset (Some doc)) (collection d "asset") = Ok outs →
  (List.length (collection d "asset") < 100)%nat →
  ∃ out,
    (create_asset asset (Some d)).1 = Ok out ∧
    (list_assets (create_asset asset (Some d)).2).1 = Ok (outs ++ [out]) ∧
    AssetOut.title out = Asset.title asset ∧
    AssetOut.image_url out = Asset.image_url asset ∧
    AssetOut.prompt out = Asset.prompt asset ∧
    AssetOut.is_active out = Asset.is_active asset.
Proof.
  intros Hup Hfresh Hold Hroom. rewrite (create_asset_up _ _ Hup Hfresh).
  eexists. split; [reflexivity |]. split; [| done]. cbn [snd].
  rewrite list_assets_up by done. cbn [fst].
  rewrite collection_record_call, collection_after_insert.
  rewrite take_ge by (rewrite length_app; cbn; lia).
  apply comprehension_app; [exact Hold |]. cbn [comprehension].
  by rewrite (serialize_with_id (Asset.model_dump asset) _ (Asset.title asset)
                (Asset.image_url asset) (Asset.prompt asset) (Asset.is_active asset))
    by by_evaluation.
Qed.

Lemma create_then_list_includes_witness :
  (list_assets (create_asset (Asset.mk "X" "http://i" "p" true) seeded).2).1
  = Ok ((demo_out 0 <$> seq 0 8)
        ++ [AssetOut.mk "000000000000000000000008" "X" "http://i" "p" true]).
Proof.
  destruct (create_then_list_includes (Asset.mk "X" "http://i" "p" true) seeded_store
              (demo_out 0 <$> seq 0 8))
    as (out & Hout & Hlist & _).
  - by_evaluation.
  - by_evaluation.
  - by_evaluation.
  - replace (List.length (collection seeded_store "asset")) with 8 by by_evaluation. lia.
  - unfold seeded. rewrite Hlist. do 2 f_equal.
    assert (Hcreated : (create_asset (Asset.mk "X" "http://i" "p" true)
                          (Some seeded_store)).1
                       = Ok (AssetOut.mk "000000000000000000000008" "X" "http://i" "p" true))
      by by_evaluation.
    rewrite Hcreated in Hout. by injection Hout as <-.
Defined.

(** X8.  Create, then delete by the identifier the answer carries: on a
    store that answers and has the next identifier free, the DELETE is
    answered with status 200 and the asset collection holds again the
    documents it held before the POST, in the same order; no other
    collection is touched. *)
Theorem create_then_delete_restores (asset : Asset.t) (d : database) :
  down d = None →
  first_with_id (ObjectId.generate (inserted d)) (collection d "asset") = None →
  ∃ out d'',
    (create_asset asset (Some d)).1 = Ok out ∧
    delete_asset (AssetOut.id out) (create_asset asset (Some d)).2
      = (Ok {[ "status" := "ok" ]}, Some d'') ∧
    collection d'' "asset" = collection d "asset" ∧
    (∀ coll, coll ≠ "asset" → collections d'' !! coll = collections d !! coll).
Proof.
  intros Hup Hfresh. rewrite (create_asset_up _ _ Hup Hfresh).
  eexists. eexists. split; [reflexivity |]. cbn [snd AssetOut.id].
  rewrite (delete_asset_up _ _ _ (parse_generate _)) by done.
  split; [reflexivity |]. split.
  - rewrite collection_delete_one by done.
    rewrite collection_record_call, collection_after_insert.
    rewrite (remove_first_middle _ _ _ [] Hfresh (has_id_insert _ _)).
    by rewrite app_nil_r.
  - intros coll Hcoll. rewrite (others_delete_one _ _ _ Hcoll). cbn.
    by rewrite lookup_insert_ne.
Qed.

Lemma create_then_delete_restores_witness :
  ∃ d'',
    (delete_asset "000000000000000000000008"
       (create_asset (Asset.mk "X" "http://i" "p" true) seeded).2).2 = Some d'' ∧
    collection d'' "asset" = collection seeded_store "asset".
Proof.
  destruct (create_then_delete_restores (Asset.mk "X" "http://i" "p" true) seeded_store)
    as (out & d'' & Hout & Hdel & Hsame & _); [by_evaluation | by_evaluation |].
  assert (Hcreated : (create_asset (Asset.mk "X" "http://i" "p" true)
                        (Some seeded_store)).1
                     = Ok (AssetOut.mk "000000000000000000000008" "X" "http://i" "p" true))
    by by_evaluation.
  rewrite Hcreated in Hout. injection Hout as <-. cbn [AssetOut.id] in Hdel.
  exists d''. unfold seeded. rewrite Hdel. split; [reflexivity | exact Hsame].
Defined.

(** ** Updating *)

Lemma has_id_lookup oid (doc : document) :
  has_id oid doc = true → doc !! "_id" = Some (VOid oid).
Proof. unfold has_id. apply bool_decide_eq_true. Qed.

Lemma fields_no_id utcnow patch :
  (<["updated_at" := VDate utcnow]> (update_data patch) : document) !! "_id" = None.
Proof. rewrite lookup_insert_ne by done. apply update_data_no_id. Qed.

Lemma update_asset_down utcnow asset_id oid patch d text :
  down d = Some text →
  ObjectId.parse asset_id = Some oid →
  update_data patch ≠ ∅ →
  update_asset utcnow asset_id patch (Some d)
  = (Raise (PyMongoError text), Some (record_call (FindOneAndUpdate "asset") d)).
Proof.
  intros Hdown Hid Hsome. rewrite (update_asset_up _ _ _ _ _ Hid Hsome).
  unfold find_one_and_update. by rewrite (round_trip_down _ _ _ _ Hdown).
Qed.

Lemma update_asset_missing utcnow asset_id oid patch d :
  down d = None →
  ObjectId.parse asset_id = Some oid →
  update_data patch ≠ ∅ →
  first_with_id oid (collection d "asset") = None →
  update_asset utcnow asset_id patch (Some d)
  = (Raise (HTTPException 404 "Asset not found"),
     Some (record_call (FindOne "asset") (record_call (FindOneAndUpdate "asset") d))).
Proof.
  intros Hup Hid Hsome Hnone. rewrite (update_asset_up _ _ _ _ _ Hid Hsome).
  unfold find_one_and_update. rewrite (round_trip_up _ _ _ Hup). cbn [fst snd].
  rewrite collection_record_call, Hnone.
  unfold find_one. rewrite round_trip_up by done. cbn [fst snd].
  by rewrite !collection_record_call, Hnone.
Qed.

Lemma update_asset_found utcnow asset_id oid patch d doc :
  down d = None →
  ObjectId.parse asset_id = Some oid →
  update_data patch ≠ ∅ →
  first_with_id oid (collection d "asset") = Some doc →
  update_asset utcnow asset_id patch (Some d)
  = (_serialize_asset
       (Some (<["updated_at" := VDate utcnow]> (update_data patch) ∪ doc)),
     Some (record_call (FindOne "asset")
             (set_collection "asset"
                (set_first oid (<["updated_at" := VDate utcnow]> (update_data patch))
                   (collection d "asset"))
                (record_call (FindOneAndUpdate "asset") d)))).
Proof.
  intros Hup Hid Hsome Hdoc.
  set (fields := <["updated_at" := VDate utcnow]> (update_data patch)).
  pose proof (first_with_id_has_id _ _ _ Hdoc) as Hhas.
  destruct (first_with_id_split _ _ _ Hdoc) as (before & after & Hdocs & Hnone).
  assert (Hhas' : has_id oid (fields ∪ doc) = true).
  { rewrite has_id_union; [done | apply fields_no_id]. }
  rewrite (update_asset_up _ _ _ _ _ Hid Hsome). fold fields.
  unfold find_one_and_update. rewrite (round_trip_up _ _ _ Hup). cbn [fst snd].
  rewrite collection_record_call, Hdoc.
  unfold find_one. rewrite round_trip_up by done. cbn [fst snd].
  rewrite collection_record_call, collection_set_collection.
  rewrite Hdocs, (set_first_middle _ _ _ _ _ Hnone Hhas).
  rewrite (first_with_id_middle _ _ _ _ Hnone Hhas').
  destruct (decide (fields ∪ doc = ∅)) as [Hempty|]; [| done].
  apply (f_equal (lookup "updated_at")) in Hempty.
  rewrite lookup_empty, lookup_union_l' in Hempty;
    [| by unfold fields; rewrite lookup_insert_eq].
  unfold fields in Hempty. by rewrite lookup_insert_eq in Hempty.
Qed.

Lemma patched_lookup {A} (inj : A → value) utcnow patch (doc : document) k f old :
  k ≠ "updated_at" →
  update_data patch !! k = effective inj f →
  doc !! k = Some (inj old) →
  (<["updated_at" := VDate utcnow]> (update_data patch) ∪ doc) !! k
  = Some (inj (patched f old)).
Proof.
  intros Hk Hf Hold. rewrite lookup_union, lookup_insert_ne, Hf, Hold by done.
  by destruct f.
Qed.

Lemma serialize_stored (doc : document) oid t u p a :
  doc !! "_id" = Some (VOid oid) →
  doc !! "title" = Some (VStr t) →
  doc !! "image_url" = Some (VStr u) →
  doc !! "prompt" = Some (VStr p) →
  doc !! "is_active" = Some (VBool a) →
  _serialize_asset (Some doc) = Ok (AssetOut.mk (ObjectId.to_str oid) t u p a).
Proof.
  intros Hi Ht Hu Hp Ha. unfold _serialize_asset, get, get_or.
  by rewrite Hi, Ht, Hu, Hp, Ha.
Qed.

(** X9.  The answer of a PATCH shows the record after the update: for
    an existing record that holds its three texts and its flag, on a
    store that answers, the answer carries the identifier of the
    request and, field by field, the value the patch gives, or the
    stored value where the patch gives none. *)
Theorem update_asset_returns_patched utcnow asset_id oid patch (d : database)
    (doc : document) t u p a :
  down d = None →
  ObjectId.parse asset_id = Some oid →
  update_data patch ≠ ∅ →
  first_with_id oid (collection d "asset") = Some doc →
  doc !! "title" = Some (VStr t) →
  doc !! "image_url" = Some (VStr u) →
  doc !! "prompt" = Some (VStr p) →
  doc !! "is_active" = Some (VBool a) →
  (update_asset utcnow asset_id patch (Some d)).1
  = Ok (AssetOut.mk (ObjectId.to_str oid)
          (patched (AssetUpdate.title patch) t)
          (patched (AssetUpdate.image_url patch) u)
          (patched (AssetUpdate.prompt patch) p)
          (patched (AssetUpdate.is_active patch) a)).
Proof.
  intros Hup Hid Hsome Hdoc Ht Hu Hp Ha.
  rewrite (update_asset_found _ _ _ _ _ _ Hup Hid Hsome Hdoc). cbn [fst].
  apply serialize_stored.
  - rewrite lookup_union_r by apply fields_no_id.
    apply has_id_lookup, (first_with_id_has_id _ _ _ Hdoc).
  - apply (patched_lookup VStr); [done | by rewrite update_data_lookup | done].
  - apply (patched_lookup VStr); [done | by rewrite update_data_lookup | done].
  - apply (patched_lookup VStr); [done | by rewrite update_data_lookup | done].
  - apply (patched_lookup VBool); [done | by rewrite update_data_lookup | done].
Qed.

Lemma update_asset_returns_patched_witness :
  (update_asset clock0 "000000000000000000000003"
     (AssetUpdate.mk (AssetUpdate.Given "Renamed") AssetUpdate.Null AssetUpdate.Unset
        (AssetUpdate.Given false)) seeded).1
  = Ok (AssetOut.mk "000000000000000000000003" "Renamed" demo_image_url demo_prompt false).
Proof.
  unfold seeded.
  rewrite (update_asset_returns_patched clock0 "000000000000000000000003"
             (ObjectId.generate 3) _ seeded_store
             (<["_id" := VOid (ObjectId.generate 3)]> (demo_document 3))
             "Sample #4" demo_image_url demo_prompt true); try by_evaluation.
  intros E. apply (f_equal (lookup "is_active")) in E. vm_compute in E. discriminate E.
Defined.

(** X10.  PATCH does not create records: on a store that answers, a
    request with a valid-shaped id that no record of the asset
    collection carries is answered with status 404 and every collection
    holds afterwards the documents it held before. *)
Theorem update_asset_never_inserts utcnow asset_id oid patch (d : database) :
  down d = None →
  ObjectId.parse asset_id = Some oid →
  update_data patch ≠ ∅ →
  first_with_id oid (collection d "asset") = None →
  (update_asset utcnow asset_id patch (Some d)).1
    = Raise (HTTPException 404 "Asset not found") ∧
  stored (update_asset utcnow asset_id patch (Some d)).2 = collections d.
Proof.
  intros Hup Hid Hsome Hnone.
  by rewrite (update_asset_missing _ _ _ _ _ Hup Hid Hsome Hnone).
Qed.

Lemma update_asset_never_inserts_witness :
  (update_asset clock0 "0000000000000000000000ff" deactivate (Some empty_store)).1
    = Raise (HTTPException 404 "Asset not found") ∧
  stored (update_asset clock0 "0000000000000000000000ff" deactivate (Some empty_store)).2
    = ∅.
Proof.
  apply (update_asset_never_inserts clock0 "0000000000000000000000ff"
           (ObjectId.generate 255) deactivate empty_store); try reflexivity.
  intros E. apply (f_equal (lookup "is_active")) in E. vm_compute in E. discriminate E.
Defined.

Lemma union_twice (fields doc : document) : fields ∪ (fields ∪ doc) = fields ∪ doc.
Proof.
  apply map_eq. intros k. rewrite !lookup_union.
  by destruct (fields !! k), (doc !! k).
Qed.

Lemma ids_set_first oid (fields : document) docs :
  fields !! "_id" = None → ids (set_first oid fields docs) = ids docs.
Proof.
  intros Hf. unfold ids. induction docs as [|doc docs IH]; [done |]. cbn.
  destruct (has_id oid doc); cbn.
  - by rewrite lookup_union_r.
  - by rewrite IH.
Qed.

Lemma length_set_first oid (fields : document) docs :
  List.length (set_first oid fields docs) = List.length docs.
Proof.
  induction docs as [|doc docs IH]; [done |]. cbn.
  destruct (has_id oid doc); cbn; [done | by rewrite IH].
Qed.

Lemma collection_lookup d coll doc docs :
  collection d coll = doc :: docs → collections d !! coll = Some (doc :: docs).
Proof.
  unfold collection. destruct (collections d !! coll) as [l|]; cbn; [| done].
  by intros ->.
Qed.

(** X11.  Repeating a PATCH with the same payload at the same clock
    reading changes nothing more: whatever the handle, the store, the
    id and the payload, the documents stored after the second request
    are those stored after the first. *)
Theorem update_asset_twice utcnow asset_id patch (db : option database) :
  stored (update_asset utcnow asset_id patch
            (update_asset utcnow asset_id patch db).2).2
  = stored (update_asset utcnow asset_id patch db).2.
Proof.
  destruct db as [d|]; [| done].
  destruct (ObjectId.parse asset_id) as [oid|] eqn:Hid.
  2: { rewrite (update_asset_malformed _ _ _ _ Hid). cbn [snd].
       by rewrite (update_asset_malformed _ _ _ _ Hid). }
  destruct (decide (update_data patch = ∅)) as [Hnone | Hsome].
  { rewrite (update_asset_no_changes _ _ _ _ _ Hid Hnone). cbn [snd].
    by rewrite (update_asset_no_changes _ _ _ _ _ Hid Hnone). }
  destruct (down d) as [text|] eqn:Hd.
  { rewrite (update_asset_down _ _ _ _ _ _ Hd Hid Hsome). cbn [snd].
    by rewrite (update_asset_down _ _ oid _ _ text). }
  destruct (first_with_id oid (collection d "asset")) as [doc|] eqn:Hdoc.
  - rewrite (update_asset_found _ _ _ _ _ _ Hd Hid Hsome Hdoc). cbn [snd].
    set (fields := <["updated_at" := VDate utcnow]> (update_data patch)).
    pose proof (first_with_id_has_id _ _ _ Hdoc) as Hhas.
    destruct (first_with_id_split _ _ _ Hdoc) as (before & after & Hdocs & Hbefore).
    assert (Hhas' : has_id oid (fields ∪ doc) = true).
    { rewrite has_id_union; [done | apply fields_no_id]. }
    rewrite Hdocs, (set_first_middle _ _ _ _ _ Hbefore Hhas).
    erewrite (update_asset_found _ _ oid _ _ (fields ∪ doc)); [| done | done | done |].
    + rewrite collection_record_call, collection_set_collection. fold fields.
      rewrite (set_first_middle _ _ _ _ _ Hbefore Hhas'), union_twice.
      cbn. by rewrite insert_insert_eq.
    + rewrite collection_record_call, collection_set_collection.
      by apply first_with_id_middle.
  - rewrite (update_asset_missing _ _ _ _ _ Hd Hid Hsome Hdoc). cbn [snd].
    by rewrite (update_asset_missing _ _ oid).
Qed.

(** X12.  PATCH neither adds nor removes a record and never rewrites an
    identifier: whatever the handle, the store, the id and the payload,
    every collection holds afterwards as many documents as before, with
    the same [_id] values in the same order. *)
Theorem update_asset_keeps_ids utcnow asset_id patch (db : option database) :
  ids <$> stored (update_asset utcnow asset_id patch db).2 = ids <$> stored db ∧
  List.length <$> stored (update_asset utcnow asset_id patch db).2
    = List.length <$> stored db.
Proof.
  destruct db as [d|]; [| done].
  destruct (ObjectId.parse asset_id) as [oid|] eqn:Hid.
  2: { by rewrite (update_asset_malformed _ _ _ _ Hid). }
  destruct (decide (update_data patch = ∅)) as [Hnone | Hsome].
  { by rewrite (update_asset_no_changes _ _ _ _ _ Hid Hnone). }
  destruct (down d) as [text|] eqn:Hd.
  { by rewrite (update_asset_down _ _ _ _ _ _ Hd Hid Hsome). }
  destruct (first_with_id oid (collection d "asset")) as [doc|] eqn:Hdoc.
  - rewrite (update_asset_found _ _ _ _ _ _ Hd Hid Hsome Hdoc). cbn.
    assert (Hlookup : collections d !! "asset" = Some (collection d "asset")).
    { destruct (collection d "asset") as [|x docs] eqn:Hdocs; [done |].
      by apply collection_lookup. }
    rewrite !fmap_insert, ids_set_first by apply fields_no_id.
    rewrite length_set_first.
    split; apply insert_id; by rewrite lookup_fmap, Hlookup.
  - by rewrite (update_asset_missing _ _ _ _ _ Hd Hid Hsome Hdoc).
Qed.

Lemma update_data_without_nulls patch :
  update_data (without_nulls patch) = update_data patch.
Proof.
  apply map_eq. intros k. rewrite !update_data_lookup.
  destruct patch as [t u p a]. cbn.
  repeat case_decide; try done; by match goal with |- context [drop_null ?f] => destruct f end.
Qed.

(** X13.  A field sent as null is a field left out: a PATCH whose
    payload has nulls is answered, and acts on the store, exactly as
    the PATCH with those fields removed from the payload.  So no PATCH
    writes a null. *)
Theorem update_asset_null_is_unset utcnow asset_id patch (db : option database) :
  update_asset utcnow asset_id (without_nulls patch) db
  = update_asset utcnow asset_id patch db.
Proof.
  unfold update_asset. by rewrite update_data_without_nulls.
Qed.

(** ** Deleting *)

Lemma count_id_none oid docs :
  first_with_id oid docs = None ↔ count_id oid docs = 0.
Proof.
  induction docs as [|doc docs IH]; [done |]. cbn.
  destruct (has_id oid doc); [done |]. by rewrite IH.
Qed.

Lemma count_id_remove_first oid docs :
  count_id oid (remove_first oid docs) = count_id oid docs - 1.
Proof.
  induction docs as [|doc docs IH]; [done |]. cbn.
  destruct (has_id oid doc) eqn:Hdoc; cbn; [lia |]. by rewrite Hdoc, IH.
Qed.

Lemma length_remove_first oid docs :
  List.length (remove_first oid docs)
  = List.length docs - (if first_with_id oid docs is Some _ then 1 else 0).
Proof.
  induction docs as [|doc docs IH]; [done |]. cbn.
  destruct (has_id oid doc) eqn:Hdoc; cbn; [lia |]. rewrite IH.
  destruct (first_with_id oid docs) eqn:Hfound; [| lia].
  destruct docs; [done | cbn; lia].
Qed.

Lemma first_with_id_remove_other oid oid' docs :
  oid' ≠ oid →
  first_with_id oid' (remove_first oid docs) = first_with_id oid' docs.
Proof.
  intros Hne. induction docs as [|doc docs IH]; [done |]. cbn.
  destruct (has_id oid doc) eqn:Hdoc; cbn.
  - destruct (has_id oid' doc) eqn:Hdoc'; [| done].
    apply has_id_lookup in Hdoc, Hdoc'. congruence.
  - by rewrite IH.
Qed.

(** X14.  DELETE removes one record and no more: on a store that
    answers, a request with a valid-shaped id leaves one record less
    with that identifier (none less when there was none), removes no
    record with another identifier, and leaves the order of the
    others.  When at most one record carried the identifier, none
    carries it afterwards, so a PATCH for it is answered with 404. *)
Theorem delete_asset_removes_one asset_id oid (d : database) :
  down d = None →
  ObjectId.parse asset_id = Some oid →
  ∃ d',
    delete_asset asset_id (Some d) = (Ok {[ "status" := "ok" ]}, Some d') ∧
    count_id oid (collection d' "asset") = count_id oid (collection d "asset") - 1 ∧
    List.length (collection d' "asset")
      = List.length (collection d "asset")
        - (if first_with_id oid (collection d "asset") is Some _ then 1 else 0) ∧
    (∀ oid', oid' ≠ oid →
       first_with_id oid' (collection d' "asset")
       = first_with_id oid' (collection d "asset")) ∧
    (∀ coll, coll ≠ "asset" → collections d' !! coll = collections d !! coll) ∧
    ((count_id oid (collection d "asset") ≤ 1)%nat →
     first_with_id oid (collection d' "asset") = None ∧
     ∀ utcnow patch,
       update_data patch ≠ ∅ →
       (update_asset utcnow asset_id patch (Some d')).1
       = Raise (HTTPException 404 "Asset not found")).
Proof.
  intros Hup Hid. exists (delete_one "asset" oid d).2.
  split; [by apply delete_asset_up |].
  rewrite (collection_delete_one _ _ Hup).
  split; [apply count_id_remove_first |].
  split; [apply length_remove_first |].
  split; [intros oid' Hne; by apply first_with_id_remove_other |].
  split; [intros coll Hcoll; by apply others_delete_one |].
  intros Hunique.
  assert (Hgone : first_with_id oid (remove_first oid (collection d "asset")) = None).
  { apply count_id_none. rewrite count_id_remove_first. lia. }
  split; [exact Hgone |]. intros utcnow patch Hsome.
  rewrite (update_asset_missing _ _ oid); [done | | done | done |].
  - by rewrite down_delete_one.
  - by rewrite (collection_delete_one _ _ Hup).
Qed.

Lemma delete_asset_removes_one_witness :
  ∃ d',
    delete_asset "000000000000000000000003" seeded
      = (Ok {[ "status" := "ok" ]}, Some d') ∧
    List.length (collection d' "asset") = 7 ∧
    (update_asset clock0 "000000000000000000000003" deactivate (Some d')).1
      = Raise (HTTPException 404 "Asset not found").
Proof.
  destruct (delete_asset_removes_one "000000000000000000000003"
              (ObjectId.generate 3) seeded_store)
    as (d' & Hrun & _ & Hlen & _ & _ & Hunique); [by_evaluation | reflexivity |].
  exists d'. split; [exact Hrun |]. split.
  - rewrite Hlen.
    replace (List.length (collection seeded_store "asset")) with 8 by by_evaluation.
    by replace (first_with_id (ObjectId.generate 3) (collection seeded_store "asset"))
      with (Some (<["_id" := VOid (ObjectId.generate 3)]> (demo_document 3)))
      by by_evaluation.
  - destruct Hunique as [_ Hpatch].
    + replace (count_id (ObjectId.generate 3) (collection seeded_store "asset"))
        with 1 by by_evaluation. lia.
    + apply Hpatch. intros E. apply (f_equal (lookup "is_active")) in E.
      vm_compute in E. discriminate E.
Defined.

(** ** A store that does not answer *)

Lemma create_asset_down asset d text :
  down d = Some text →
  create_asset asset (Some d)
  = (Raise (PyMongoError text), Some (record_call (InsertOne "asset") d)).
Proof.
  intros Hdown. unfold create_asset, with_db.
  erewrite bind_raise; [done |].
  unfold create_document, driver. by rewrite (round_trip_down _ _ _ _ Hdown).
Qed.

Lemma delete_asset_down asset_id oid d text :
  down d = Some text →
  ObjectId.parse asset_id = Some oid →
  delete_asset asset_id (Some d)
  = (Raise (PyMongoError text), Some (record_call (DeleteOne "asset") d)).
Proof.
  intros Hdown Hid. unfold delete_asset, with_db. rewrite Hid.
  erewrite bind_raise; [done |].
  unfold delete_one, driver. by rewrite (round_trip_down _ _ _ _ Hdown).
Qed.

(** X15.  No store-backed handler catches what the driver raises.  When
    the store behind the handle does not answer, seeding, listing,
    creating, and updating or deleting with a valid request, each make
    one driver call, are answered with a plain status 500 carrying
    neither of the service's own messages, and leave every stored
    document as it was. *)
Theorem unreachable_store_is_500 (d : database) text utcnow asset_id oid patch asset :
  down d = Some text →
  ObjectId.parse asset_id = Some oid →
  update_data patch ≠ ∅ →
  seed_assets (Some d)
    = (Raise (PyMongoError text), Some (record_call (Find "asset") d)) ∧
  list_assets (Some d)
    = (Raise (PyMongoError text), Some (record_call (Find "asset") d)) ∧
  create_asset asset (Some d)
    = (Raise (PyMongoError text), Some (record_call (InsertOne "asset") d)) ∧
  update_asset utcnow asset_id patch (Some d)
    = (Raise (PyMongoError text), Some (record_call (FindOneAndUpdate "asset") d)) ∧
  delete_asset asset_id (Some d)
    = (Raise (PyMongoError text), Some (record_call (DeleteOne "asset") d)) ∧
  http_status (Raise (PyMongoError text) : result unit) = 500 ∧
  (∀ c, collections (record_call c d) = collections d).
Proof.
  intros Hdown Hid Hsome.
  split; [by apply seed_assets_down |].
  split; [by apply list_assets_down |].
  split; [by apply create_asset_down |].
  split; [by apply (update_asset_down _ _ oid) |].
  split; [by apply (delete_asset_down _ oid) |]. done.
Qed.

Lemma unreachable_store_is_500_witness :
  (create_asset (Asset.mk "X" "http://i" "p" true)
     (Some (mk_database "appdb" ∅ 0 (Some "connection refused") []))).1
  = Raise (PyMongoError "connection refused") ∧
  (delete_asset "000000000000000000000003"
     (Some (mk_database "appdb" ∅ 0 (Some "connection refused") []))).1
  = Raise (PyMongoError "connection refused").
Proof.
  destruct (unreachable_store_is_500
              (mk_database "appdb" ∅ 0 (Some "connection refused") [])
              "connection refused" clock0 "000000000000000000000003"
              (ObjectId.generate 3) deactivate (Asset.mk "X" "http://i" "p" true))
    as (_ & _ & Hcreate & _ & Hdelete & _).
  - reflexivity.
  - reflexivity.
  - intros E. apply (f_equal (lookup "is_active")) in E. vm_compute in E. discriminate E.
  - by rewrite Hcreate, Hdelete.
Defined.

(** ** What the diagnostic route reports *)

(** X16.  The diagnostic object always reports the backend as running.
    With a null handle it reports no store name and no URL state, the
    connection as not made, and makes no driver call.  With a handle it
    reports the name of the store and the connection as made, makes
    exactly one driver call, which lists the collections, and reports
    the store URL as set exactly when the environment variable holds a
    non-empty text. *)
Theorem test_database_reports DATABASE_URL (db : option database) :
  let response := (test_database DATABASE_URL db).1 in
  response !! "backend" = Some (JStr "✅ Running") ∧
  match db with
  | None =>
      response !! "database_url" = Some JNull ∧
      response !! "database_name" = Some JNull ∧
      response !! "connection_status" = Some (JStr "Not Connected") ∧
      (test_database DATABASE_URL db).2 = None
  | Some d =>
      response !! "database_name" = Some (JStr (name d)) ∧
      response !! "connection_status" = Some (JStr "Connected") ∧
      (test_database DATABASE_URL db).2
        = Some (record_call ListCollectionNames d) ∧
      (response !! "database_url" = Some (JStr "✅ Set") ∨
       response !! "database_url" = Some (JStr "❌ Not Set")) ∧
      (response !! "database_url" = Some (JStr "✅ Set") ↔
       ∃ c rest, DATABASE_URL = Some (String c rest))
  end.
Proof.
  destruct db as [d|]; cbn zeta; [| by repeat split].
  unfold test_database, list_collection_names.
  assert (Hurl : ∀ outcome : gmap string json,
            outcome !! "database_url"
            = Some (JStr (match DATABASE_URL with
                          | Some (String _ _) => "✅ Set"
                          | _ => "❌ Not Set"
                          end)) →
            (outcome !! "database_url" = Some (JStr "✅ Set") ∨
             outcome !! "database_url" = Some (JStr "❌ Not Set")) ∧
            (outcome !! "database_url" = Some (JStr "✅ Set") ↔
             ∃ c rest, DATABASE_URL = Some (String c rest))).
  { intros outcome ->. destruct DATABASE_URL as [[|c rest]|].
    - split; [by right |]. split; [done | by intros (? & ? & ?)].
    - split; [by left |]. split; [by eexists; eexists | done].
    - split; [by right |]. split; [done | by intros (? & ? & ?)]. }
  destruct (down d) as [text|] eqn:Hd.
  - rewrite (round_trip_down _ _ _ _ Hd). cbn [fst snd].
    split; [by_evaluation |]. split; [by_evaluation |]. split; [by_evaluation |].
    split; [done |]. apply Hurl. by_evaluation.
  - rewrite (round_trip_up _ _ _ Hd). cbn [fst snd].
    split; [by_evaluation |]. split; [by_evaluation |]. split; [by_evaluation |].
    split; [done |]. apply Hurl. by_evaluation.
Qed.

(** ** Seeding, then listing *)

(** X17.  On a store that answers and holds at most 24 assets, the
    list that [GET /api/assets] returns right after a seed is the very
    answer of the seed: the same records in the same order when the
    seed returned a list, the same error when it raised one. *)
Theorem seed_then_list_agree (d : database) :
  down d = None →
  (List.length (collection d "asset") ≤ 24)%nat →
  (list_assets (seed_assets (Some d)).2).1 = (seed_assets (Some d)).1.
Proof.
  intros Hup Hfew.
  destruct (collection d "asset") as [|doc docs] eqn:Hdocs.
  - destruct (seed_assets_empty d Hup Hdocs) as (d' & -> & Hd' & _ & Hup').
    cbn [fst snd]. rewrite (list_assets_up _ Hup'). cbn [fst].
    rewrite take_ge by (rewrite Hd', with_ids_length; cbn; lia).
    rewrite Hd'. unfold demo.
    rewrite <- (N.add_0_r (inserted d)) at 1. change 0%N with (N.of_nat 0).
    apply serialize_demo.
  - rewrite seed_assets_nonempty by (by rewrite ?Hdocs). cbn [fst snd].
    rewrite list_assets_up by done. cbn [fst].
    rewrite !collection_record_call, Hdocs.
    by rewrite !take_ge by lia.
Qed.

Lemma seed_then_list_agree_witness :
  (list_assets (seed_assets (Some empty_store)).2).1 = Ok (demo_out 0 <$> seq 0 8).
Proof.
  rewrite (seed_then_list_agree empty_store); [by_evaluation | reflexivity |].
  replace (List.length (collection empty_store "asset")) with 0 by reflexivity. lia.
Defined.
